(** * ethsign: a shallow embedding of [ethsign.go]

    The program is a command-line front end over go-ethereum's accounts
    library.  Its three actions ([list-accounts], [transaction], [message])
    are embedded as computations in a small writer/exit monad: every call
    that leaves the process (standard output and error, wallet calls, the
    passphrase file, the terminal) is recorded as an [Event], and the
    answers of the outside world are read from a [World] record.  The
    library functions the program calls but does not define (Keccak-256,
    RLP, number and hex parsing, ...) are the fields of a [Lib] record. *)

From stdpp Require Import base option list strings gmap.
From Stdlib Require Import Strings.Byte Strings.Ascii Strings.String NArith Lia.

Local Open Scope string_scope.
Local Open Scope N_scope.
Local Open Scope list_scope.

(** ** Bytes and Go strings *)

#[global] Instance byte_eq_decision : EqDecision byte := byte_eq_dec.

(** [b += k] on a Go [byte]: addition modulo 2^8. *)
Definition byte_add (b : byte) (k : N) : byte :=
  default x00 (Byte.of_N ((Byte.to_N b + k) mod 256)).

(** [[]byte(s)] and [string(b)]: a Go string is its byte sequence. *)
Definition bytes_of_string (s : string) : list byte := list_byte_of_string s.
Definition string_of_bytes (b : list byte) : string := string_of_list_byte b.

(** [strings.HasPrefix(s, prefix)] of the Go standard library. *)
Definition strings_HasPrefix (s prefix : string) : bool := String.prefix prefix s.

(** [strings.TrimSuffix(s, suffix)] of the Go standard library: [s] without
    the trailing [suffix], or [s] itself when it does not end with it. *)
Definition strings_TrimSuffix (s suffix : string) : string :=
  let n := String.length s in
  let k := String.length suffix in
  if (k <=? n)%nat && bool_decide (String.substring (n - k) k s = suffix)
  then String.substring 0 (n - k) s
  else s.

(** ** [encoding/hex] and [hexutil.Encode]

    Both belong to libraries (the Go standard library and go-ethereum); they
    are written out here after their documented behaviour, because the
    output of the program is their result. *)

Definition hextable : string := "0123456789abcdef".

Definition hex_digit (n : N) : ascii :=
  default "0"%char (String.get (N.to_nat n) hextable).

(** [hex.EncodeToString]: [hextable[v>>4]], [hextable[v&0x0f]] per byte. *)
Fixpoint hex_EncodeToString (src : list byte) : string :=
  match src with
  | [] => ""
  | v :: rest =>
      String (hex_digit (N.shiftr (Byte.to_N v) 4))
        (String (hex_digit (N.land (Byte.to_N v) 15))
           (hex_EncodeToString rest))
  end.

(** [hexutil.Encode(b)]: the hex string of [b] with a [0x] prefix. *)
Definition hexutil_Encode (b : list byte) : string :=
  "0x" +:+ hex_EncodeToString b.

(** ** [fmt.Sprintf], for the verbs the program uses

    Again a function of the Go standard library, written out for the two
    verbs that occur in the formats of the program. *)

(** The operands the program passes to the [fmt] functions: [int]s that are
    never negative ([len(data)], the loop counter [j]), byte slices and
    strings. *)
Inductive fmt_arg :=
| ArgInt (n : N)
| ArgBytes (b : list byte)
| ArgString (s : string).

Definition digit_char (d : N) : ascii := ascii_of_N (48 + d).

(** The digit loop of [strconv]: the least significant digit is written
    first, in front of what is already there, until the quotient is zero. *)
Fixpoint format_digits (fuel : nat) (n : N) (acc : string) : string :=
  match fuel with
  | O => acc
  | S fuel' =>
      let acc' := String (digit_char (n mod 10)) acc in
      if n / 10 =? 0 then acc' else format_digits fuel' (n / 10) acc'
  end.

(** [%d] of a non-negative [int]. A number has at most [log2 n + 1] decimal
    digits, so this fuel is enough ([format_digits_enough]). *)
Definition itoa (n : N) : string :=
  format_digits (S (N.to_nat (N.log2 n))) n "".

Definition format_verb (verb : ascii) (a : fmt_arg) : option string :=
  match a with
  | ArgInt n => if bool_decide (verb = "d"%char) then Some (itoa n) else None
  | ArgBytes b => if bool_decide (verb = "s"%char) then Some (string_of_bytes b) else None
  | ArgString s => if bool_decide (verb = "s"%char) then Some s else None
  end.

(** [fmt.Sprintf(format, args...)] for formats whose verbs are [%d] on an
    integer and [%s] on a string or byte slice. Other uses do not occur in
    the program; they are left as [None]. *)
Fixpoint Sprintf (format : string) (args : list fmt_arg) : option string :=
  match format with
  | "" => match args with [] => Some "" | _ => None end
  | String c rest =>
      if bool_decide (c = "%"%char) then
        match rest, args with
        | String verb rest', a :: args' =>
            s ← format_verb verb a;
            r ← Sprintf rest' args';
            Some (s +:+ r)
        | _, _ => None
        end
      else String c <$> Sprintf rest args
  end.

(** The formats of the program are well formed, so [Sprintf] is used
    through this total wrapper. *)
Definition Sprintf' (format : string) (args : list fmt_arg) : string :=
  default "" (Sprintf format args).

(** ** Data of the accounts library *)

(** [common.Address] (20 bytes; compared with [==]). *)
Definition Address := list byte.

(** [accounts.URL] *)
Record URL := { Scheme : string; Path : string }.

#[global] Instance URL_eq_decision : EqDecision URL.
Proof. solve_decision. Defined.

(** [accounts.Account] *)
Record Account := { Addr : Address; AccURL : URL }.

#[global] Instance Account_eq_decision : EqDecision Account.
Proof. solve_decision. Defined.

(** [accounts.DerivationPath] ([[]uint32]) *)
Definition DerivationPath := list N.

(** [types.Transaction] before signing. [tx_to] is [None] for a contract
    creation ([types.NewContractCreation]) and the recipient otherwise
    ([types.NewTransaction]). *)
Record Transaction := {
  tx_nonce : N;
  tx_to : option Address;
  tx_value : N;
  tx_gasLimit : N;
  tx_gasPrice : N;
  tx_data : list byte;
}.

Definition NewTransaction (nonce : N) (to : Address) (amount gasLimit gasPrice : N)
    (data : list byte) : Transaction :=
  {| tx_nonce := nonce; tx_to := Some to; tx_value := amount;
     tx_gasLimit := gasLimit; tx_gasPrice := gasPrice; tx_data := data |}.

Definition NewContractCreation (nonce : N) (amount gasLimit gasPrice : N)
    (data : list byte) : Transaction :=
  {| tx_nonce := nonce; tx_to := None; tx_value := amount;
     tx_gasLimit := gasLimit; tx_gasPrice := gasPrice; tx_data := data |}.

(** A signed transaction: the transaction and the signature the wallet
    attached to it. *)
Record SignedTx := { stx_tx : Transaction; stx_sig : list byte }.

(** The methods of the [accounts.Wallet] interface that the program calls.
    [None] is a non-nil [error]. *)
Record Wallet := {
  wURL : URL;
  wAccounts : list Account;
  wDerive : DerivationPath -> bool -> option Account;
  wSignTxWithPassphrase : Account -> string -> Transaction -> N -> option SignedTx;
  wSignHashWithPassphrase : Account -> string -> list byte -> option (list byte);
}.

(** [accounts.Backend]: a provider of wallets. *)
Record Backend := { bWallets : list Wallet }.

(** ** The library and the world *)

(** Functions of go-ethereum that the program calls. They are not part of
    this repository and are taken as parameters. A [Must...] function
    panics where its field answers [None]; a pair [(v, ok)] is Go's
    [(value, error)] with [ok = false] for a non-nil error. *)
Record Lib := {
  Keccak256 : list byte -> list byte;
  HexToAddress : string -> Address;
  MustParseUint64 : string -> option N;
  MustParseBig256 : string -> option N;
  MustDecode : string -> option (list byte);
  ParseDerivationPath : string -> DerivationPath * bool;
  EncodeToBytes : SignedTx -> list byte * bool;
  (** [Address.Hex()] *)
  AddressHex : Address -> string;
  (** [accounts.NewManager(backends...).Wallets()] *)
  ManagerWallets : list Backend -> list Wallet;
}.

(** What the process finds outside: the key store directories, the USB
    hubs, the file system and the terminal. *)
Record World := {
  NewKeyStore : string -> Backend;
  NewLedgerHub : option Backend;
  NewTrezorHub : option Backend;
  ReadFile : string -> option string;
  ReadPassword : option string;
}.

(** ** Events, outcomes and the monad of actions *)

Inductive Event :=
| EvStdout (s : string)
| EvStderr (s : string)
| EvOpen (u : URL) (passphrase : string)
| EvDerive (u : URL) (path : DerivationPath) (pin : bool)
| EvReadFile (name : string)
| EvReadPassword
| EvSignTx (u : URL) (a : Account) (passphrase : string) (tx : Transaction) (chainID : N)
| EvSignHash (u : URL) (a : Account) (passphrase : string) (hash : list byte).

(** How an action ends: it returns ([Ok]; for an [Action], [return nil]),
    it returns [cli.NewExitError(msg, code)], or it panics. *)
Inductive Outcome (A : Type) :=
| Ok (a : A)
| ExitError (msg : string) (code : N)
| Panic.
Arguments Ok {A} a.
Arguments ExitError {A} msg code.
Arguments Panic {A}.

Definition M (A : Type) : Type := list Event * Outcome A.

#[global] Instance M_ret : MRet M := fun A a => ([], Ok a).

#[global] Instance M_bind : MBind M := fun A B f m =>
  match m.2 with
  | Ok a => (m.1 ++ (f a).1, (f a).2)
  | ExitError msg code => (m.1, ExitError msg code)
  | Panic => (m.1, Panic)
  end.

Definition emit (e : Event) : M unit := ([e], Ok tt).
Definition NewExitError {A} (msg : string) (code : N) : M A := ([], ExitError msg code).
Definition must {A} (o : option A) : M A :=
  match o with Some a => mret a | None => ([], Panic) end.

(** [fmt.Println(s)], [fmt.Printf] and [fmt.Fprintf(os.Stderr, ...)] *)
Definition Println (s : string) : M unit := emit (EvStdout (s +:+ String "010" "")).
Definition Printf (format : string) (args : list fmt_arg) : M unit :=
  emit (EvStdout (Sprintf' format args)).
Definition Fprintf_Stderr (format : string) (args : list fmt_arg) : M unit :=
  emit (EvStderr (Sprintf' format args)).

(** ** Command-line context *)

(** [cli.Context]: the values of the string flags and of the bool flags.
    [c.String(name)] is the empty string and [c.Bool(name)] is [false] for a
    flag that has no value. *)
Record Context := {
  stringFlags : gmap string string;
  boolFlags : gmap string bool;
}.

Definition ctxString (c : Context) (name : string) : string :=
  default "" (stringFlags c !! name).
Definition ctxBool (c : Context) (name : string) : bool :=
  default false (boolFlags c !! name).

(** ** The program *)

Definition nl : string := String "010" "".

Section Program.
Context (L : Lib) (W : World).

(** [signHash]: the format is
    ["\x19Ethereum Signed Message:\n%d%s"], applied to [len(data)] and
    [data]; the hash is taken of the bytes of the result. *)
Definition signHash (data : list byte) : list byte :=
  let msg :=
    Sprintf' (String "025" "Ethereum Signed Message:" +:+ nl +:+ "%d%s")
      [ArgInt (N.of_nat (List.length data)); ArgBytes data] in
  Keccak256 L (bytes_of_string msg).

Definition getWallets (store : string) : M (list Wallet) :=
  let ks := NewKeyStore W store in
  let backends := [ks] in
  backends ←
    match NewLedgerHub W with
    | None =>
        Fprintf_Stderr "ethsign: failed to look for USB Ledgers" [];;
        mret backends
    | Some ledgerhub => mret (backends ++ [ledgerhub])
    end;
  backends ←
    match NewTrezorHub W with
    | None =>
        Fprintf_Stderr "ethsign: failed to look for USB Trezors" [];;
        mret backends
    | Some trezorhub => mret (backends ++ [trezorhub])
    end;
  mret (ManagerWallets L backends).

(** The loop over [requireds] that opens the [transaction] and [message]
    actions. *)
Fixpoint checkRequireds (c : Context) (requireds : list string) : M unit :=
  match requireds with
  | [] => mret tt
  | required :: rest =>
      if bool_decide (ctxString c required = "")
      then NewExitError ("ethsign: missing required parameter --" +:+ required) 1
      else checkRequireds c rest
  end.

(** The variables [wallet], [acct] and [needPassphrase] after a successful
    scan. *)
Record Found := {
  wallet : Wallet;
  acct : Account;
  needPassphrase : bool;
}.

(** [for _, y := range x.Accounts()] with its [break Scan]. *)
Fixpoint scanAccounts (accts : list Account) (from : Address) : option Account :=
  match accts with
  | [] => None
  | y :: rest =>
      if bool_decide (Addr y = from) then Some y else scanAccounts rest from
  end.

Definition pathstr (j : N) : string := Sprintf' "m/44'/60'/0'/%d" [ArgInt j].

(** [for j := 0; j <= 3; j++] of the scan, over the values of [j] still to
    come: [Some y] is [break Scan] with [acct = &y], [None] is the end of
    the loop, and a failed [Derive] returns the exit error. *)
Fixpoint scanDerive (x : Wallet) (js : list N) (from : Address) : M (option Account) :=
  match js with
  | [] => mret None
  | j :: rest =>
      let path := (ParseDerivationPath L (pathstr j)).1 in
      emit (EvDerive (wURL x) path true);;
      match wDerive x path true with
      | None =>
          NewExitError
            "ethsign: Ledger needs to be in Ethereum app with browser support off" 1
      | Some y =>
          if bool_decide (Addr y = from) then mret (Some y)
          else scanDerive x rest from
      end
  end.

(** The loop labelled [Scan]; it is the same text in the [transaction] and
    in the [message] action. [None] is [acct == nil] after the loop. *)
Fixpoint Scan (wallets : list Wallet) (from : Address) : M (option Found) :=
  match wallets with
  | [] => mret None
  | x :: rest =>
      if bool_decide (Scheme (wURL x) = "keystore") then
        match scanAccounts (wAccounts x) from with
        | Some y => mret (Some {| wallet := x; acct := y; needPassphrase := true |})
        | None => Scan rest from
        end
      else if bool_decide (Scheme (wURL x) = "ledger") then
        emit (EvOpen (wURL x) "");;
        r ← scanDerive x [0; 1; 2; 3] from;
        match r with
        | Some y => mret (Some {| wallet := x; acct := y; needPassphrase := false |})
        | None => Scan rest from
        end
      else Scan rest from
  end.

(** The [if needPassphrase { ... } else { ... }] block, again the same text
    in both actions; the result is the variable [passphrase]. *)
Definition getPassphrase (c : Context) (needPassphrase : bool) : M string :=
  if needPassphrase then
    if negb (bool_decide (ctxString c "passphrase-file" = "")) then
      emit (EvReadFile (ctxString c "passphrase-file"));;
      match ReadFile W (ctxString c "passphrase-file") with
      | None => NewExitError "ethsign: failed to read passphrase file" 1
      | Some passphraseFile => mret (strings_TrimSuffix passphraseFile nl)
      end
    else
      Fprintf_Stderr "Ethereum account passphrase (not echoed): " [];;
      emit EvReadPassword;;
      match ReadPassword W with
      | None => NewExitError "ethsign: failed to read passphrase" 1
      | Some bytes => mret bytes
      end
  else
    Fprintf_Stderr ("Waiting for hardware wallet confirmation..." +:+ nl) [];;
    mret "".

(** [wallet.SignTxWithPassphrase] and [wallet.SignHashWithPassphrase]: the
    call is recorded and the wallet answers. *)
Definition SignTxWithPassphrase (w : Wallet) (a : Account) (passphrase : string)
    (tx : Transaction) (chainID : N) : M (option SignedTx) :=
  emit (EvSignTx (wURL w) a passphrase tx chainID);;
  mret (wSignTxWithPassphrase w a passphrase tx chainID).

Definition SignHashWithPassphrase (w : Wallet) (a : Account) (passphrase : string)
    (hash : list byte) : M (option (list byte)) :=
  emit (EvSignHash (wURL w) a passphrase hash);;
  mret (wSignHashWithPassphrase w a passphrase hash).

(** *** The [transaction] action *)

Definition transaction_requireds : list string :=
  ["nonce"; "value"; "gas-price"; "gas-limit"; "chain-id"; "from"].

(** The local variables that the first part of the action computes from the
    flags. *)
Record TxArgs := {
  a_create : bool;
  a_to : Address;
  a_from : Address;
  a_nonce : N;
  a_gasPrice : N;
  a_gasLimit : N;
  a_value : N;
  a_chainID : N;
  a_data : list byte;
}.

(** From [requireds := ...] to [data := hexutil.MustDecode(dataString)]. *)
Definition transaction_flags (c : Context) : M TxArgs :=
  checkRequireds c transaction_requireds;;
  let create := ctxBool c "create" in
  if (bool_decide (ctxString c "to" = "") && negb create)
     || (negb (bool_decide (ctxString c "to" = "")) && create)
  then NewExitError "ethsign: need exactly one of --to or --create" 1
  else if create && bool_decide (ctxString c "data" = "")
  then NewExitError "ethsign: need --data when doing --create" 1
  else
    let to := HexToAddress L (ctxString c "to") in
    let from := HexToAddress L (ctxString c "from") in
    nonce ← must (MustParseUint64 L (ctxString c "nonce"));
    gasPrice ← must (MustParseBig256 L (ctxString c "gas-price"));
    gasLimit ← must (MustParseBig256 L (ctxString c "gas-limit"));
    value ← must (MustParseBig256 L (ctxString c "value"));
    chainID ← must (MustParseBig256 L (ctxString c "chain-id"));
    let dataString := ctxString c "data" in
    let dataString := if bool_decide (dataString = "") then "0x" else dataString in
    data ← must (MustDecode L dataString);
    mret {| a_create := create; a_to := to; a_from := from; a_nonce := nonce;
            a_gasPrice := gasPrice; a_gasLimit := gasLimit; a_value := value;
            a_chainID := chainID; a_data := data |}.

(** [var tx *types.Transaction; if create { ... } else { ... }] *)
Definition transaction_tx (a : TxArgs) : Transaction :=
  if a_create a
  then NewContractCreation (a_nonce a) (a_value a) (a_gasLimit a) (a_gasPrice a) (a_data a)
  else NewTransaction (a_nonce a) (a_to a) (a_value a) (a_gasLimit a) (a_gasPrice a) (a_data a).

(** From [passphrase := ""] to the end, for the account that was found. *)
Definition transaction_sign (c : Context) (a : TxArgs) (f : Found) : M unit :=
  passphrase ← getPassphrase c (needPassphrase f);
  let tx := transaction_tx a in
  signed ← SignTxWithPassphrase (wallet f) (acct f) passphrase tx (a_chainID a);
  match signed with
  | None => NewExitError "ethsign: failed to sign tx" 1
  | Some signed =>
      let encoded := (EncodeToBytes L signed).1 in
      Println (hexutil_Encode encoded)
  end.

Definition transaction_Action (c : Context) : M unit :=
  a ← transaction_flags c;
  wallets ← getWallets (ctxString c "key-store");
  found ← Scan wallets (a_from a);
  match found with
  | None => NewExitError "ethsign: account not found" 1
  | Some f => transaction_sign c a f
  end.

(** *** The [message] action *)

Definition message_requireds : list string := ["from"; "data"].

(** From [requireds := ...] to [data := hexutil.MustDecode(dataString)]:
    the variables [from] and [data]. *)
Definition message_flags (c : Context) : M (Address * list byte) :=
  checkRequireds c message_requireds;;
  let from := HexToAddress L (ctxString c "from") in
  let dataString := ctxString c "data" in
  let dataString :=
    if negb (strings_HasPrefix dataString "0x") then "0x" +:+ dataString
    else dataString in
  data ← must (MustDecode L dataString);
  mret (from, data).

(** From [passphrase := ""] to the end. [signature[64] += 27] panics on a
    signature shorter than 65 bytes. *)
Definition message_sign (c : Context) (data : list byte) (f : Found) : M unit :=
  passphrase ← getPassphrase c (needPassphrase f);
  signature ← SignHashWithPassphrase (wallet f) (acct f) passphrase (signHash data);
  match signature with
  | None => NewExitError "ethsign: failed to sign tx" 1
  | Some signature =>
      v ← must (signature !! 64%nat);
      let signature := <[64%nat := byte_add v 27]> signature in
      Println (hexutil_Encode signature)
  end.

Definition message_Action (c : Context) : M unit :=
  '(from, data) ← message_flags c;
  wallets ← getWallets (ctxString c "key-store");
  found ← Scan wallets from;
  match found with
  | None => NewExitError "ethsign: account not found" 1
  | Some f => message_sign c data f
  end.

(** *** The [list-accounts] action *)

(** [for j := 0; j <= 3; j++] of the listing. *)
Fixpoint listDerive (x : Wallet) (js : list N) : M unit :=
  match js with
  | [] => mret tt
  | j :: rest =>
      let path := (ParseDerivationPath L (pathstr j)).1 in
      emit (EvDerive (wURL x) path false);;
      match wDerive x path false with
      | None =>
          NewExitError
            "ethsign: couldn't use Ledger: needs to be in Ethereum app with browser support off" 1
      | Some z =>
          Printf ("%s ledger-%s" +:+ nl) [ArgString (AddressHex L (Addr z)); ArgString (pathstr j)];;
          listDerive x rest
      end
  end.

Fixpoint listAccounts (accts : list Account) : M unit :=
  match accts with
  | [] => mret tt
  | y :: rest =>
      Printf ("%s keystore" +:+ nl) [ArgString (AddressHex L (Addr y))];;
      listAccounts rest
  end.

Fixpoint listWallets (wallets : list Wallet) : M unit :=
  match wallets with
  | [] => mret tt
  | x :: rest =>
      (if bool_decide (Scheme (wURL x) = "keystore") then listAccounts (wAccounts x)
       else if bool_decide (Scheme (wURL x) = "ledger") then
         emit (EvOpen (wURL x) "");;
         listDerive x [0; 1; 2; 3]
       else mret tt);;
      listWallets rest
  end.

Definition list_accounts_Action (c : Context) : M unit :=
  wallets ← getWallets (ctxString c "key-store");
  listWallets wallets.

End Program.

(** ** A concrete library and concrete worlds

    The theorems below hold for every [Lib] and [World]. To run the program
    on inputs, the library is instantiated here: hex and number parsing
    follow go-ethereum ([0x]-prefixed hex of even length; decimal numbers),
    derivation paths are parsed component by component, the manager lists
    the wallets of its backends in order, and the hash and the RLP encoder
    are stand-ins, since no statement depends on what they compute. *)
Module Sample.

Definition hex_value (c : ascii) : option N :=
  let n := N_of_ascii c in
  if (48 <=? n) && (n <=? 57) then Some (n - 48)
  else if (97 <=? n) && (n <=? 102) then Some (n - 87)
  else if (65 <=? n) && (n <=? 70) then Some (n - 55)
  else None.

Fixpoint hex_Decode (s : string) : option (list byte) :=
  match s with
  | "" => Some []
  | String hi (String lo rest) =>
      h ← hex_value hi;
      l ← hex_value lo;
      b ← Byte.of_N (16 * h + l);
      r ← hex_Decode rest;
      Some (b :: r)
  | String _ "" => None
  end.

Definition hexutil_Decode (s : string) : option (list byte) :=
  match s with
  | String "0" (String x rest) =>
      if bool_decide (x = "x"%char) || bool_decide (x = "X"%char)
      then hex_Decode rest else None
  | _ => None
  end.

Fixpoint parse_decimal_from (s : string) (acc : N) : option N :=
  match s with
  | "" => Some acc
  | String c rest =>
      let n := N_of_ascii c in
      if (48 <=? n) && (n <=? 57) then parse_decimal_from rest (10 * acc + (n - 48))
      else None
  end.

Definition parse_decimal (s : string) : option N :=
  match s with "" => None | _ => parse_decimal_from s 0 end.

(** One component of a derivation path: a decimal number, hardened (plus
    2^31) when followed by an apostrophe. *)
Fixpoint parse_component (s : string) (acc : N) : option N :=
  match s with
  | "" => Some acc
  | String c rest =>
      let n := N_of_ascii c in
      if (48 <=? n) && (n <=? 57) then parse_component rest (10 * acc + (n - 48))
      else if bool_decide (c = "'"%char) && bool_decide (rest = "") then Some (acc + 2147483648)
      else None
  end.

(** The components of [s] between the slashes; [cur] is the component being
    read. *)
Fixpoint split_slash (s : string) (cur : string) : list string :=
  match s with
  | "" => [cur]
  | String c rest =>
      if bool_decide (c = "/"%char) then cur :: split_slash rest ""
      else split_slash rest (cur +:+ String c "")
  end.

Definition parse_path (s : string) : DerivationPath * bool :=
  match split_slash s "" with
  | "m" :: comps =>
      match mapM (fun comp => parse_component comp 0) comps with
      | Some p => (p, true)
      | None => ([], false)
      end
  | _ => ([], false)
  end.

Definition lib : Lib := {|
  Keccak256 := fun b => b;
  HexToAddress := fun s => default [] (hexutil_Decode s);
  MustParseUint64 := parse_decimal;
  MustParseBig256 := parse_decimal;
  MustDecode := hexutil_Decode;
  ParseDerivationPath := parse_path;
  EncodeToBytes := fun signed => (stx_sig signed ++ tx_data (stx_tx signed), true);
  AddressHex := hexutil_Encode;
  ManagerWallets := fun backends => List.concat (bWallets <$> backends);
|}.

Definition addrA : Address := [xaa; x01].
Definition addrB : Address := [xbb; x02].
Definition addrC : Address := [xcc; x03].

(** A 65-byte signature whose last byte is the recovery value [v]. *)
Definition sig65 (v : byte) : list byte := replicate 64 x11 ++ [v].

(** A key store wallet holding [addrA]; it signs only with the passphrase
    ["secret"]. *)
Definition keystoreURL : URL := {| Scheme := "keystore"; Path := "/keys/a.json" |}.
Definition keystoreWallet : Wallet := {|
  wURL := keystoreURL;
  wAccounts := [ {| Addr := addrA; AccURL := keystoreURL |} ];
  wDerive := fun _ _ => None;
  wSignTxWithPassphrase := fun a p tx _ =>
    if bool_decide (p = "secret") then Some {| stx_tx := tx; stx_sig := sig65 x00 |} else None;
  wSignHashWithPassphrase := fun a p h =>
    if bool_decide (p = "secret") then Some (sig65 x01) else None;
|}.

(** A hardware wallet that derives [addrC] at [m/44'/60'/0'/0], [addrB] at
    [m/44'/60'/0'/1] and other addresses elsewhere, and signs whatever the
    passphrase is. *)
Definition hardwareWallet (scheme : string) : Wallet :=
  let url := {| Scheme := scheme; Path := "0001:0002:00" |} in
  {| wURL := url;
     wAccounts := [];
     wDerive := fun path _ =>
       match path with
       | [2147483692; 2147483708; 2147483648; 0] => Some {| Addr := addrC; AccURL := url |}
       | [2147483692; 2147483708; 2147483648; 1] => Some {| Addr := addrB; AccURL := url |}
       | _ => Some {| Addr := [x00]; AccURL := url |}
       end;
     wSignTxWithPassphrase := fun a p tx _ => Some {| stx_tx := tx; stx_sig := sig65 x01 |};
     wSignHashWithPassphrase := fun a p h => Some (sig65 x00) |}.

(** A world with the key store and the given wallets on the Ledger and
    Trezor hubs; the passphrase file [pw.txt] holds ["secret\n"]. *)
Definition world (ledgers trezors : list Wallet) : World := {|
  NewKeyStore := fun _ => {| bWallets := [keystoreWallet] |};
  NewLedgerHub := Some {| bWallets := ledgers |};
  NewTrezorHub := Some {| bWallets := trezors |};
  ReadFile := fun name => if bool_decide (name = "pw.txt") then Some ("secret" +:+ nl) else None;
  ReadPassword := Some "secret";
|}.

Definition flags (l : list (string * string)) (create : bool) : Context :=
  {| stringFlags := list_to_map l; boolFlags := {[ "create" := create ]} |}.

(** [ethsign tx --from <from> --to 0xdd04 --nonce 1 --value 10 --gas-price 2
    --gas-limit 21000 --chain-id 1 --passphrase-file pw.txt] *)
Definition txFlags (from : string) : Context :=
  flags [("from", from); ("to", "0xdd04"); ("nonce", "1"); ("value", "10");
         ("gas-price", "2"); ("gas-limit", "21000"); ("chain-id", "1");
         ("passphrase-file", "pw.txt"); ("key-store", "/keys")] false.

(** [ethsign tx --create --from 0xaa01 --nonce 1 --value 10 --gas-price 2
    --gas-limit 21000 --chain-id 1], without [--data] *)
Definition createFlags : Context :=
  flags [("from", "0xaa01"); ("nonce", "1"); ("value", "10"); ("gas-price", "2");
         ("gas-limit", "21000"); ("chain-id", "1"); ("key-store", "/keys")] true.

(** [ethsign msg --from <from> --data <data>] *)
Definition msgFlags (from data : string) : Context :=
  flags [("from", from); ("data", data); ("key-store", "/keys")] false.

(** A wallet on the Ledger hub that cannot derive: the device is not in the
    Ethereum app. *)
Definition lockedWallet : Wallet :=
  let url := {| Scheme := "ledger"; Path := "0003:0004:00" |} in
  {| wURL := url;
     wAccounts := [];
     wDerive := fun _ _ => None;
     wSignTxWithPassphrase := fun _ _ _ _ => None;
     wSignHashWithPassphrase := fun _ _ _ => None |}.

(** A key store wallet holding [addrC] that returns a signature of 64 bytes
    only. *)
Definition shortSigURL : URL := {| Scheme := "keystore"; Path := "/keys/c.json" |}.
Definition shortSigWallet : Wallet := {|
  wURL := shortSigURL;
  wAccounts := [ {| Addr := addrC; AccURL := shortSigURL |} ];
  wDerive := fun _ _ => None;
  wSignTxWithPassphrase := fun _ _ _ _ => None;
  wSignHashWithPassphrase := fun _ _ _ => Some (replicate 64 x11);
|}.

(** A world whose key store holds [shortSigWallet] and whose hubs both fail
    to open. *)
Definition bareWorld : World := {|
  NewKeyStore := fun _ => {| bWallets := [shortSigWallet] |};
  NewLedgerHub := None;
  NewTrezorHub := None;
  ReadFile := fun _ => None;
  ReadPassword := Some "secret";
|}.

End Sample.

(** ** Vocabulary of the statements *)

(** The value of a string of decimal digits, most significant first, on top
    of [acc]; [None] if a character is not a digit. *)
Fixpoint decimal_from (s : string) (acc : N) : option N :=
  match s with
  | "" => Some acc
  | String c rest =>
      let n := N_of_ascii c in
      if (48 <=? n) && (n <=? 57) then decimal_from rest (10 * acc + (n - 48))
      else None
  end.

(** [s] is the decimal representation of [n]: digits only, with value [n],
    not empty, and with no leading zero unless it is ["0"]. *)
Definition is_decimal_of (s : string) (n : N) : Prop :=
  decimal_from s 0 = Some n /\
  (s = "0" \/ exists c rest, s = String c rest /\ c <> "0"%char).

(** ["\x19Ethereum Signed Message:\n"] *)
Definition message_prefix : list byte :=
  "025"%byte :: bytes_of_string "Ethereum Signed Message:" ++ ["010"%byte].

(** The string that the [message] action decodes: [--data], with ["0x"] put
    in front when it does not start with it. *)
Definition message_dataString (c : Context) : string :=
  if strings_HasPrefix (ctxString c "data") "0x" then ctxString c "data"
  else "0x" +:+ ctxString c "data".

(** The context [c] with [--data s]. *)
Definition with_data (c : Context) (s : string) : Context :=
  {| stringFlags := <["data" := s]> (stringFlags c); boolFlags := boolFlags c |}.


(** The backends [getWallets] hands to the manager, and what it writes to
    standard error on the way. *)
Definition hub_backends (W : World) (store : string) : list Backend :=
  [NewKeyStore W store]
  ++ from_option (fun hub => [hub]) [] (NewLedgerHub W)
  ++ from_option (fun hub => [hub]) [] (NewTrezorHub W).

Definition hub_errors (W : World) : list Event :=
  (if NewLedgerHub W is Some _ then [] else [EvStderr "ethsign: failed to look for USB Ledgers"])
  ++ (if NewTrezorHub W is Some _ then [] else [EvStderr "ethsign: failed to look for USB Trezors"]).

(** The derivation paths of the loops, as strings and as parsed. *)
Definition hd_pathstrs : list string := pathstr <$> [0; 1; 2; 3].
Definition hd_path (L : Lib) (j : N) : DerivationPath :=
  (ParseDerivationPath L (pathstr j)).1.
Definition hd_paths (L : Lib) : list DerivationPath := hd_path L <$> [0; 1; 2; 3].


(** The elements of [l] up to and including the first one at which [stop]
    holds (all of [l] if there is none). *)
Fixpoint take_through {A} (stop : A -> bool) (l : list A) : list A :=
  match l with
  | [] => []
  | a :: rest => a :: (if stop a then [] else take_through stop rest)
  end.

(** The searching loop stops at a path whose derivation fails or gives the
    account looked for; the listing loop stops at a failed derivation. *)
Definition search_stops (x : Wallet) (from : Address) (p : DerivationPath) : bool :=
  match wDerive x p true with
  | None => true
  | Some y => bool_decide (Addr y = from)
  end.

Definition list_stops (x : Wallet) (p : DerivationPath) : bool :=
  match wDerive x p false with None => true | Some _ => false end.



(** The writes to standard output, in order. *)
Definition stdout (tr : list Event) : list string :=
  omap (fun e => match e with EvStdout s => Some s | _ => None end) tr.

(** A signing call; a read of the passphrase from the file or the terminal. *)
Definition is_sign_call (e : Event) : bool :=
  match e with
  | EvSignTx _ _ _ _ _ | EvSignHash _ _ _ _ => true
  | _ => false
  end.

Definition is_passphrase_read (e : Event) : bool :=
  match e with
  | EvReadFile _ | EvReadPassword => true
  | _ => false
  end.

(** ** Vocabulary of the further statements *)

(** The signing calls of a trace. *)
Definition sign_calls (tr : list Event) : list Event := List.filter is_sign_call tr.

(** The scan ends at wallet [x]: a key store wallet that has an account with
    the address, or a Ledger wallet for which one of the four paths fails or
    gives the address. *)
Definition scan_stops (L : Lib) (from : Address) (x : Wallet) : bool :=
  if bool_decide (Scheme (wURL x) = "keystore")
  then existsb (fun y => bool_decide (Addr y = from)) (wAccounts x)
  else if bool_decide (Scheme (wURL x) = "ledger")
  then existsb (search_stops x from) (hd_paths L)
  else false.

(** The wallet calls that the scan makes on wallet [x]: none on a key store
    wallet, and on a Ledger wallet [Open("")] followed by the [Derive] calls. *)
Definition scan_calls (L : Lib) (from : Address) (x : Wallet) : list Event :=
  if bool_decide (Scheme (wURL x) = "keystore") then []
  else if bool_decide (Scheme (wURL x) = "ledger")
  then EvOpen (wURL x) ""
       :: ((fun p => EvDerive (wURL x) p true)
             <$> take_through (search_stops x from) (hd_paths L))
  else [].

(** The listing ends at wallet [x]: a Ledger wallet one of whose four
    derivations fails. *)
Definition list_fails (L : Lib) (x : Wallet) : bool :=
  negb (bool_decide (Scheme (wURL x) = "keystore"))
  && bool_decide (Scheme (wURL x) = "ledger")
  && existsb (list_stops x) (hd_paths L).

(** The lines that the listing prints for the paths [js] of a Ledger wallet:
    one for each derived account, up to the first derivation that fails. *)
Fixpoint ledger_lines (L : Lib) (x : Wallet) (js : list N) : list string :=
  match js with
  | [] => []
  | j :: rest =>
      match wDerive x (hd_path L j) false with
      | None => []
      | Some z =>
          (AddressHex L (Addr z) +:+ " ledger-" +:+ pathstr j +:+ nl)
          :: ledger_lines L x rest
      end
  end.

(** The lines that the listing prints for wallet [x]. *)
Definition wallet_lines (L : Lib) (x : Wallet) : list string :=
  if bool_decide (Scheme (wURL x) = "keystore")
  then (fun y => AddressHex L (Addr y) +:+ " keystore" +:+ nl) <$> wAccounts x
  else if bool_decide (Scheme (wURL x) = "ledger")
  then ledger_lines L x [0; 1; 2; 3]
  else [].

(** What the listing does: it writes, opens a wallet with the empty
    passphrase, or derives without pinning. *)
Definition is_listing_event (e : Event) : bool :=
  match e with
  | EvStdout _ | EvStderr _ => true
  | EvOpen _ passphrase => bool_decide (passphrase = "")
  | EvDerive _ _ pin => negb pin
  | _ => false
  end.

(** The exit errors of the program after the required flags. *)
Definition exit_messages : list string :=
  ["ethsign: need exactly one of --to or --create";
   "ethsign: need --data when doing --create";
   "ethsign: Ledger needs to be in Ethereum app with browser support off";
   "ethsign: couldn't use Ledger: needs to be in Ethereum app with browser support off";
   "ethsign: account not found";
   "ethsign: failed to read passphrase file";
   "ethsign: failed to read passphrase";
   "ethsign: failed to sign tx"].

(** [msg] is one of the exit errors of the program. *)
Definition is_exit_message (msg : string) : Prop :=
  msg ∈ exit_messages \/
  exists name,
    name ∈ transaction_requireds ++ message_requireds /\
    msg = "ethsign: missing required parameter --" +:+ name.

(** The string that the [transaction] action decodes: [--data], or ["0x"]
    when it is empty. *)
Definition transaction_dataString (c : Context) : string :=
  if bool_decide (ctxString c "data" = "") then "0x" else ctxString c "data".

(** * Properties *)

(** ** Concrete runs *)

Example itoa_examples :
  itoa 0 = "0" /\ itoa 7 = "7" /\ itoa 10 = "10" /\ itoa 65 = "65" /\ itoa 1234567 = "1234567".
Proof. repeat split; reflexivity. Qed.

Example Sprintf_pathstr : Sprintf "m/44'/60'/0'/%d" [ArgInt 2] = Some "m/44'/60'/0'/2".
Proof. reflexivity. Qed.

Example TrimSuffix_examples :
  strings_TrimSuffix ("secret" +:+ nl) nl = "secret" /\
  strings_TrimSuffix ("secret" +:+ nl +:+ nl) nl = "secret" +:+ nl /\
  strings_TrimSuffix "secret" nl = "secret" /\
  strings_TrimSuffix "" nl = "".
Proof. repeat split; reflexivity. Qed.

Example hexutil_Encode_example : hexutil_Encode [x00; x1b; xff] = "0x001bff".
Proof. reflexivity. Qed.

Example signHash_example :
  signHash Sample.lib [xab; xcd] =
  "025"%byte :: bytes_of_string "Ethereum Signed Message:" ++ ["010"%byte; "2"%byte; xab; xcd].
Proof. reflexivity. Qed.

(** [tx] for an account of the key store: the passphrase file is read, the
    wallet signs, one line is printed. *)
Example transaction_keystore_run :
  transaction_Action Sample.lib (Sample.world [] []) (Sample.txFlags "0xaa01") =
  ([EvReadFile "pw.txt";
    EvSignTx Sample.keystoreURL {| Addr := Sample.addrA; AccURL := Sample.keystoreURL |}
      "secret"
      {| tx_nonce := 1; tx_to := Some [xdd; x04]; tx_value := 10; tx_gasLimit := 21000;
         tx_gasPrice := 2; tx_data := [] |} 1;
    EvStdout (hexutil_Encode (Sample.sig65 x00) +:+ nl)],
   Ok tt).
Proof. vm_compute. reflexivity. Qed.

(** [msg] for the account that a Ledger derives at its second path: two
    derivations, the notice, the signing call without passphrase, and the
    signature printed with 27 added to its last byte. *)
Example message_ledger_run :
  let x := Sample.hardwareWallet "ledger" in
  message_Action Sample.lib (Sample.world [x] []) (Sample.msgFlags "0xbb02" "abcd") =
  ([EvOpen (wURL x) "";
    EvDerive (wURL x) [2147483692; 2147483708; 2147483648; 0] true;
    EvDerive (wURL x) [2147483692; 2147483708; 2147483648; 1] true;
    EvStderr ("Waiting for hardware wallet confirmation..." +:+ nl);
    EvSignHash (wURL x) {| Addr := Sample.addrB; AccURL := wURL x |} ""
      (signHash Sample.lib [xab; xcd]);
    EvStdout (hexutil_Encode (Sample.sig65 x1b) +:+ nl)],
   Ok tt).
Proof. vm_compute. reflexivity. Qed.

(** [ls] with the key store, a Ledger and a Trezor: the Trezor is not
    listed. *)
Example list_accounts_run :
  let x := Sample.hardwareWallet "ledger" in
  stdout (list_accounts_Action Sample.lib
            (Sample.world [x] [Sample.hardwareWallet "trezor"])
            (Sample.flags [("key-store", "/keys")] false)).1 =
  ["0xaa01 keystore" +:+ nl;
   "0xcc03 ledger-m/44'/60'/0'/0" +:+ nl;
   "0xbb02 ledger-m/44'/60'/0'/1" +:+ nl;
   "0x00 ledger-m/44'/60'/0'/2" +:+ nl;
   "0x00 ledger-m/44'/60'/0'/3" +:+ nl].
Proof. vm_compute. reflexivity. Qed.

(** ** The monad *)

Lemma mbind_Ok {A B} (f : A -> M B) (t : list Event) (a : A) :
  (t, Ok a) ≫= f = (t ++ (f a).1, (f a).2).
Proof. reflexivity. Qed.

Lemma mbind_ExitError {A B} (f : A -> M B) (t : list Event) msg code :
  (t, ExitError msg code) ≫= f = (t, ExitError msg code).
Proof. reflexivity. Qed.

Lemma mbind_Panic {A B} (f : A -> M B) (t : list Event) :
  (t, Panic) ≫= f = (t, Panic).
Proof. reflexivity. Qed.

Lemma mbind_snd {A B} (f : A -> M B) (m : M A) :
  (m ≫= f).2 =
  match m.2 with
  | Ok a => (f a).2
  | ExitError msg code => ExitError msg code
  | Panic => Panic
  end.
Proof. by destruct m as [t [a|msg code|]]. Qed.

Lemma mbind_Ok_inv {A B} (f : A -> M B) (m : M A) (t : list Event) (b : B) :
  m ≫= f = (t, Ok b) ->
  exists a t1 t2, m = (t1, Ok a) /\ f a = (t2, Ok b) /\ t = t1 ++ t2.
Proof.
  destruct m as [t1 [a|msg code|]]; [|discriminate..].
  rewrite mbind_Ok. destruct (f a) as [t2 o] eqn:Hf. simpl.
  intros [= <- ->]. by exists a, t1, t2.
Qed.

Lemma elem_of_mbind {A B} (f : A -> M B) (m : M A) (e : Event) :
  e ∈ (m ≫= f).1 <-> e ∈ m.1 \/ exists a, m.2 = Ok a /\ e ∈ (f a).1.
Proof.
  destruct m as [t [a|msg code|]]; simpl.
  - rewrite elem_of_app. split; intros [H|H]; eauto.
    destruct H as (a' & [= <-] & H). by right.
  - split; [by left|]. intros [H|(a & [=] & _)]. done.
  - split; [by left|]. intros [H|(a & [=] & _)]. done.
Qed.

(** ** Strings *)

Lemma append_String (c : ascii) (s1 s2 : string) :
  String c s1 +:+ s2 = String c (s1 +:+ s2).
Proof. reflexivity. Qed.

Lemma append_nil_r (s : string) : s +:+ "" = s.
Proof. induction s as [|c s IH]; [done|]. by rewrite append_String, IH. Qed.

Lemma append_assoc (s1 s2 s3 : string) : (s1 +:+ s2) +:+ s3 = s1 +:+ (s2 +:+ s3).
Proof. induction s1 as [|c s1 IH]; [done|]. by rewrite !append_String, IH. Qed.

Lemma length_append (s1 s2 : string) :
  String.length (s1 +:+ s2) = (String.length s1 + String.length s2)%nat.
Proof. induction s1 as [|c s1 IH]; [done|]. rewrite append_String. simpl. by rewrite IH. Qed.

Lemma bytes_of_string_app (s1 s2 : string) :
  bytes_of_string (s1 +:+ s2) = bytes_of_string s1 ++ bytes_of_string s2.
Proof.
  unfold bytes_of_string.
  induction s1 as [|c s1 IH]; [done|].
  rewrite append_String.
  change (byte_of_ascii c :: list_byte_of_string (s1 +:+ s2) =
          byte_of_ascii c :: list_byte_of_string s1 ++ list_byte_of_string s2).
  by rewrite IH.
Qed.

(** ** Decimal numerals *)

Lemma decimal_from_app (s1 s2 : string) (acc : N) :
  decimal_from (s1 +:+ s2) acc = decimal_from s1 acc ≫= decimal_from s2.
Proof.
  revert acc. induction s1 as [|c s1 IH]; intros acc; [done|].
  rewrite append_String. simpl.
  destruct (_ && _); [apply IH|done].
Qed.

Lemma N_of_digit_char (d : N) : d < 10 -> N_of_ascii (digit_char d) = 48 + d.
Proof. intros Hd. unfold digit_char. apply N_ascii_embedding. lia. Qed.

Lemma decimal_from_digit (d acc : N) :
  d < 10 -> decimal_from (String (digit_char d) "") acc = Some (10 * acc + d).
Proof.
  intros Hd. simpl. rewrite N_of_digit_char by done.
  replace (_ && _) with true.
  - f_equal. lia.
  - symmetry. apply andb_true_iff. split; apply N.leb_le; lia.
Qed.

Lemma digit_char_nonzero (d : N) : 0 < d -> d < 10 -> digit_char d <> "0"%char.
Proof.
  intros H0 H10 Heq. apply (f_equal N_of_ascii) in Heq.
  rewrite N_of_digit_char in Heq by done. simpl in Heq. lia.
Qed.

Lemma format_digits_S (fuel : nat) (n : N) (acc : string) :
  format_digits (S fuel) n acc =
  if n / 10 =? 0 then String (digit_char (n mod 10)) acc
  else format_digits fuel (n / 10) (String (digit_char (n mod 10)) acc).
Proof. reflexivity. Qed.

(** The digit loop, given fuel for the size of [n], writes in front of [acc]
    a numeral of [n] that has no leading zero unless [n] is a single digit. *)
Lemma format_digits_enough (fuel : nat) (n : N) (acc : string) :
  n < 2 ^ N.of_nat (S fuel) ->
  exists ds c rest,
    format_digits (S fuel) n acc = ds +:+ acc /\
    ds = String c rest /\
    (forall a, decimal_from ds a = Some (10 ^ N.of_nat (String.length ds) * a + n)) /\
    (c = "0"%char -> n = 0 /\ rest = "").
Proof.
  revert n acc. induction fuel as [|fuel IH]; intros n acc Hn.
  - assert (n / 10 = 0) as Hq by (apply N.div_small; simpl in Hn; lia).
    assert (n mod 10 = n) as Hr by (apply N.mod_small; simpl in Hn; lia).
    simpl. rewrite Hq, Hr. simpl.
    exists (String (digit_char n) ""), (digit_char n), "".
    split_and!; [done..| |].
    + intros a. rewrite decimal_from_digit by (simpl in Hn; lia).
      f_equal; try (simpl String.length; lia).
    + intros Hc. split; [|done].
      destruct (decide (n = 0)) as [|Hn0]; [done|].
      exfalso. apply (digit_char_nonzero n); [lia|simpl in Hn; lia|done].
  - rewrite format_digits_S.
    destruct (N.eqb_spec (n / 10) 0) as [Hq|Hq].
    + exists (String (digit_char (n mod 10)) ""), (digit_char (n mod 10)), "".
      assert (n mod 10 = n) as Hr.
      { apply N.mod_small. apply N.div_small_iff in Hq; lia. }
      rewrite Hr. assert (n < 10) by (rewrite <- Hr; apply N.mod_lt; lia).
      split_and!; [done..| |].
      * intros a. rewrite decimal_from_digit by done. f_equal; try (simpl String.length; lia).
      * intros Hc. split; [|done].
        destruct (decide (n = 0)) as [|Hn0]; [done|].
        exfalso. apply (digit_char_nonzero n); [lia|done|done].
    + destruct (IH (n / 10) (String (digit_char (n mod 10)) acc))
        as (ds & c & rest & Heq & Hds & Hval & Hlead).
      { apply N.Div0.div_lt_upper_bound.
        rewrite Nat2N.inj_succ, N.pow_succ_r' in Hn. lia. }
      exists (ds +:+ String (digit_char (n mod 10)) ""), c,
        (rest +:+ String (digit_char (n mod 10)) "").
      split_and!.
      * rewrite Heq. by rewrite append_assoc.
      * rewrite Hds. done.
      * intros a. rewrite decimal_from_app, Hval.
        etrans; [apply decimal_from_digit, N.mod_lt; lia|].
        f_equal. rewrite length_append. simpl String.length.
        rewrite Nat2N.inj_add, N.pow_add_r. change (10 ^ N.of_nat 1) with 10.
        pose proof (N.div_mod n 10 ltac:(lia)). lia.
      * intros Hc. destruct (Hlead Hc) as [H0 _]. done.
Qed.

Lemma itoa_is_decimal (n : N) : is_decimal_of (itoa n) n.
Proof.
  destruct (format_digits_enough (N.to_nat (N.log2 n)) n "")
    as (ds & c & rest & Heq & Hds & Hval & Hlead).
  { rewrite Nat2N.inj_succ, N2Nat.id.
    destruct (decide (n = 0)) as [->|Hn]; [done|].
    apply N.log2_spec. lia. }
  unfold itoa. rewrite Heq.
  rewrite append_nil_r.
  split.
  - rewrite Hval. f_equal. lia.
  - destruct (decide (c = "0"%char)) as [Hc|Hc].
    + left. destruct (Hlead Hc) as [_ ->]. by rewrite Hds, Hc.
    + right. eauto.
Qed.

(** ** What each part of an action can emit *)

Section Traces.
Context (L : Lib) (W : World).

Lemma getWallets_eq (store : string) :
  getWallets L W store = (hub_errors W, Ok (ManagerWallets L (hub_backends W store))).
Proof.
  unfold getWallets, hub_errors, hub_backends.
  destruct (NewLedgerHub W), (NewTrezorHub W); reflexivity.
Qed.

Lemma getWallets_events (store : string) (e : Event) :
  e ∈ (getWallets L W store).1 -> exists s, e = EvStderr s.
Proof.
  rewrite getWallets_eq. unfold hub_errors. simpl.
  destruct (NewLedgerHub W), (NewTrezorHub W); simpl; intros H;
    repeat (apply elem_of_cons in H as [->|H]; [by eexists|]);
    by apply elem_of_nil in H.
Qed.

Lemma checkRequireds_trace (c : Context) (requireds : list string) :
  (checkRequireds c requireds).1 = [].
Proof. induction requireds as [|r rest IH]; simpl; [done|]. by case_bool_decide. Qed.

Lemma must_trace {A} (o : option A) : (must o).1 = [].
Proof. by destruct o. Qed.

Lemma mbind_trace_nil {A B} (f : A -> M B) (m : M A) :
  m.1 = [] -> (forall a, (f a).1 = []) -> (m ≫= f).1 = [].
Proof.
  destruct m as [t [a|msg code|]]; simpl; intros -> Hf; [|done..].
  apply Hf.
Qed.

Lemma transaction_flags_trace (c : Context) : (transaction_flags L c).1 = [].
Proof.
  unfold transaction_flags.
  apply mbind_trace_nil; [apply checkRequireds_trace|intros _].
  repeat (case_match; [done|]); clear.
  repeat (apply mbind_trace_nil; [apply must_trace|intros ?]). done.
Qed.

Lemma message_flags_trace (c : Context) : (message_flags L c).1 = [].
Proof.
  unfold message_flags.
  apply mbind_trace_nil; [apply checkRequireds_trace|intros _].
  apply mbind_trace_nil; [apply must_trace|intros ?]. done.
Qed.

Lemma scanDerive_events (x : Wallet) (js : list N) (from : Address) (e : Event) :
  e ∈ (scanDerive L x js from).1 ->
  exists j, j ∈ js /\ e = EvDerive (wURL x) (ParseDerivationPath L (pathstr j)).1 true.
Proof.
  induction js as [|j rest IH]; simpl; [by rewrite elem_of_nil|].
  destruct (wDerive x _ true) as [y|]; simpl.
  - case_bool_decide as Hm; simpl.
    + rewrite list_elem_of_singleton. intros ->. exists j. split; [left|done].
    + rewrite elem_of_cons. intros [->|H].
      * exists j. split; [left|done].
      * destruct (IH H) as (j' & Hj' & ->). exists j'. split; [by right|done].
  - rewrite list_elem_of_singleton. intros ->. exists j. split; [left|done].
Qed.

Lemma Scan_events (wallets : list Wallet) (from : Address) (e : Event) :
  e ∈ (Scan L wallets from).1 ->
  exists x, x ∈ wallets /\ Scheme (wURL x) = "ledger" /\
    (e = EvOpen (wURL x) "" \/
     exists j, j ∈ [0; 1; 2; 3] /\
       e = EvDerive (wURL x) (ParseDerivationPath L (pathstr j)).1 true).
Proof.
  induction wallets as [|x rest IH]; [by rewrite elem_of_nil|].
  assert (forall x', (exists y, y ∈ rest /\ x' = y) -> x' ∈ x :: rest) as Hrest
    by (intros x' (y & Hy & ->); by right).
  cbn [Scan]. case_bool_decide as Hks.
  - destruct (scanAccounts _ _); [by rewrite elem_of_nil|].
    intros H. destruct (IH H) as (x' & Hx' & Hrem). exists x'. split; [by right|done].
  - case_bool_decide as Hl.
    + intros [H|(u & _ & H)]%elem_of_mbind.
      { apply list_elem_of_singleton in H as ->. exists x. split_and!; [left|done|by left]. }
      apply elem_of_mbind in H as [Hd|(r & Hr & Hs)].
      { apply scanDerive_events in Hd. exists x. split_and!; [left|done|by right]. }
      destruct r as [y|]; [by apply elem_of_nil in Hs|].
      destruct (IH Hs) as (x' & Hx' & Hrem). exists x'. split; [by right|done].
    + intros H. destruct (IH H) as (x' & Hx' & Hrem). exists x'. split; [by right|done].
Qed.

Lemma getPassphrase_events (c : Context) (need : bool) (e : Event) :
  e ∈ (getPassphrase W c need).1 ->
  if need then
    if bool_decide (ctxString c "passphrase-file" = "")
    then e = EvStderr "Ethereum account passphrase (not echoed): " \/ e = EvReadPassword
    else e = EvReadFile (ctxString c "passphrase-file")
  else e = EvStderr ("Waiting for hardware wallet confirmation..." +:+ nl).
Proof.
  unfold getPassphrase. destruct need.
  - case_bool_decide; simpl.
    + destruct (ReadPassword W); simpl; rewrite !elem_of_cons, elem_of_nil; tauto.
    + destruct (ReadFile W _); simpl; rewrite !elem_of_cons, elem_of_nil; tauto.
  - simpl. rewrite list_elem_of_singleton. done.
Qed.

End Traces.

(** ** The hash of a signed message *)

Lemma signHash_eq (L : Lib) (data : list byte) :
  signHash L data =
  Keccak256 L
    (message_prefix ++ bytes_of_string (itoa (N.of_nat (List.length data))) ++ data).
Proof.
  unfold signHash. f_equal.
  assert (Sprintf' (String "025" "Ethereum Signed Message:" +:+ nl +:+ "%d%s")
            [ArgInt (N.of_nat (List.length data)); ArgBytes data]
          = (String "025" "Ethereum Signed Message:" +:+ nl)
            +:+ (itoa (N.of_nat (List.length data)) +:+ (string_of_bytes data +:+ "")))
    as -> by reflexivity.
  rewrite !bytes_of_string_app. unfold string_of_bytes, bytes_of_string at 3.
  rewrite list_byte_of_string_of_list_byte.
  change (bytes_of_string "") with (@nil byte). rewrite app_nil_r.
  reflexivity.
Qed.

Lemma message_flags_Ok (L : Lib) (c : Context) (from : Address) (data : list byte) :
  (message_flags L c).2 = Ok (from, data) ->
  from = HexToAddress L (ctxString c "from") /\
  MustDecode L (message_dataString c) = Some data.
Proof.
  unfold message_flags, message_dataString.
  destruct (checkRequireds c message_requireds) as [t [[]|msg code|]]; [|done..].
  rewrite mbind_Ok. cbv zeta.
  destruct (strings_HasPrefix _ _); simpl;
    destruct (MustDecode L _) as [d|]; simpl; [|done| |done];
    by intros [= <- <-].
Qed.

Lemma message_sign_events (L : Lib) (W : World) (c : Context) (data : list byte)
    (f : Found) (u : URL) (a : Account) (p : string) (h : list byte) :
  EvSignHash u a p h ∈ (message_sign L W c data f).1 ->
  u = wURL (wallet f) /\ a = acct f /\ h = signHash L data /\
  (getPassphrase W c (needPassphrase f)).2 = Ok p.
Proof.
  unfold message_sign. intros [H|(p' & Hp & H)]%elem_of_mbind.
  { apply getPassphrase_events in H. repeat case_match; intuition discriminate. }
  apply elem_of_mbind in H as [H|(sig & _ & H)].
  { simpl in H. apply list_elem_of_singleton in H as [= -> -> -> ->]. done. }
  destruct sig as [sig|]; [|by apply elem_of_nil in H].
  apply elem_of_mbind in H as [H|(v & _ & H)].
  { rewrite must_trace in H. by apply elem_of_nil in H. }
  simpl in H. by apply list_elem_of_singleton in H.
Qed.

(** C8. For every byte sequence [d], [signHash d] is Keccak-256 of the
    prefix ["\x19Ethereum Signed Message:\n"], followed by the decimal
    representation of the length of [d], followed by [d]; and every hash that
    the [message] action hands to a wallet for signing is [signHash] of the
    bytes decoded from [--data]. *)
Theorem signHash_prefixed_keccak (L : Lib) :
  (forall d : list byte,
     exists digits : string,
       is_decimal_of digits (N.of_nat (List.length d)) /\
       signHash L d = Keccak256 L (message_prefix ++ bytes_of_string digits ++ d)) /\
  (forall (W : World) (c : Context) (u : URL) (a : Account) (p : string) (h : list byte),
     EvSignHash u a p h ∈ (message_Action L W c).1 ->
     exists d : list byte,
       MustDecode L (message_dataString c) = Some d /\ h = signHash L d).
Proof.
  split.
  - intros d. exists (itoa (N.of_nat (List.length d))).
    split; [apply itoa_is_decimal|apply signHash_eq].
  - intros W c u a p h. unfold message_Action.
    intros [H|([from d] & Hfl & H)]%elem_of_mbind.
    { rewrite message_flags_trace in H. by apply elem_of_nil in H. }
    apply message_flags_Ok in Hfl as [-> Hd].
    apply elem_of_mbind in H as [H|(ws & _ & H)].
    { apply getWallets_events in H as [s [=]]. }
    apply elem_of_mbind in H as [H|(found & _ & H)].
    { apply Scan_events in H as (x & _ & _ & [[=]|(j & _ & [=])]). }
    destruct found as [f|]; [|by apply elem_of_nil in H].
    apply message_sign_events in H as (_ & _ & -> & _).
    by exists d.
Qed.

Lemma signHash_prefixed_keccak_witness :
  exists d : list byte,
    MustDecode Sample.lib (message_dataString (Sample.msgFlags "0xaa01" "abcd")) = Some d /\
    message_prefix ++ bytes_of_string "2" ++ [xab; xcd] = signHash Sample.lib d.
Proof.
  apply (proj2 (signHash_prefixed_keccak Sample.lib) (Sample.world [] [])
           (Sample.msgFlags "0xaa01" "abcd") Sample.keystoreURL
           {| Addr := Sample.addrA; AccURL := Sample.keystoreURL |} "secret").
  vm_compute. do 2 right. left.
Defined.

(** ** Required flags and the validation of [--to], [--create], [--data] *)

Lemma checkRequireds_missing (c : Context) (requireds : list string) :
  Exists (fun r => ctxString c r = "") requireds ->
  exists name,
    name ∈ requireds /\ ctxString c name = "" /\
    checkRequireds c requireds =
      ([], ExitError ("ethsign: missing required parameter --" +:+ name) 1).
Proof.
  induction requireds as [|r rest IH]; intros Hex; [by inversion Hex|].
  simpl. case_bool_decide as Hr.
  - exists r. split_and!; [left|done|done].
  - inversion Hex as [? ? Hhd|? ? Htl]; subst; [done|].
    destruct (IH Htl) as (name & Hin & Hempty & Heq).
    exists name. split_and!; [by right|done|done].
Qed.


(** C2. If one of [--nonce], [--value], [--gas-price], [--gas-limit],
    [--chain-id], [--from] is empty, the [transaction] action returns the exit
    error ["ethsign: missing required parameter --<name>"] for an empty one of
    them, and so does the [message] action for [--from] and [--data]; in both
    cases nothing has happened before: the trace is empty, so no wallet was
    opened and nothing was signed. *)
Theorem required_flags_enforced (L : Lib) (W : World) (c : Context) :
  (Exists (fun r => ctxString c r = "")
     ["nonce"; "value"; "gas-price"; "gas-limit"; "chain-id"; "from"] ->
   exists name,
     name ∈ ["nonce"; "value"; "gas-price"; "gas-limit"; "chain-id"; "from"] /\
     ctxString c name = "" /\
     transaction_Action L W c =
       ([], ExitError ("ethsign: missing required parameter --" +:+ name) 1)) /\
  (Exists (fun r => ctxString c r = "") ["from"; "data"] ->
   exists name,
     name ∈ ["from"; "data"] /\
     ctxString c name = "" /\
     message_Action L W c =
       ([], ExitError ("ethsign: missing required parameter --" +:+ name) 1)).
Proof.
  split; intros Hex; apply checkRequireds_missing in Hex as (name & Hin & Hempty & Heq);
    exists name; (split_and!; [done..|]).
  - unfold transaction_Action, transaction_flags.
    change transaction_requireds
      with ["nonce"; "value"; "gas-price"; "gas-limit"; "chain-id"; "from"].
    by rewrite Heq.
  - unfold message_Action, message_flags.
    change message_requireds with ["from"; "data"].
    by rewrite Heq.
Qed.

Lemma required_flags_enforced_witness :
  exists name,
    name ∈ ["from"; "data"] /\
    ctxString (Sample.msgFlags "0xaa01" "") name = "" /\
    message_Action Sample.lib (Sample.world [] []) (Sample.msgFlags "0xaa01" "") =
      ([], ExitError ("ethsign: missing required parameter --" +:+ name) 1).
Proof.
  apply (proj2 (required_flags_enforced Sample.lib (Sample.world [] [])
                  (Sample.msgFlags "0xaa01" ""))).
  apply Exists_cons_tl, Exists_cons_hd. reflexivity.
Defined.

Lemma transaction_flags_Ok (L : Lib) (c : Context) (a : TxArgs) :
  (transaction_flags L c).2 = Ok a ->
  a_create a = ctxBool c "create" /\
  a_to a = HexToAddress L (ctxString c "to") /\
  a_from a = HexToAddress L (ctxString c "from") /\
  MustParseUint64 L (ctxString c "nonce") = Some (a_nonce a) /\
  MustParseBig256 L (ctxString c "gas-price") = Some (a_gasPrice a) /\
  MustParseBig256 L (ctxString c "gas-limit") = Some (a_gasLimit a) /\
  MustParseBig256 L (ctxString c "value") = Some (a_value a) /\
  MustParseBig256 L (ctxString c "chain-id") = Some (a_chainID a) /\
  MustDecode L (if bool_decide (ctxString c "data" = "") then "0x" else ctxString c "data")
    = Some (a_data a).
Proof.
  unfold transaction_flags.
  destruct (checkRequireds c transaction_requireds) as [t [[]|msg code|]]; [|done..].
  rewrite mbind_Ok. cbv zeta.
  destruct (_ || _); [done|]. destruct (_ && _); [done|].
  destruct (MustParseUint64 L _) as [nonce|]; [|done].
  destruct (MustParseBig256 L (ctxString c "gas-price")) as [gasPrice|]; [|done].
  destruct (MustParseBig256 L (ctxString c "gas-limit")) as [gasLimit|]; [|done].
  destruct (MustParseBig256 L (ctxString c "value")) as [value|]; [|done].
  destruct (MustParseBig256 L (ctxString c "chain-id")) as [chainID|]; [|done].
  destruct (MustDecode L _) as [data|]; [|done].
  simpl. intros [= <-]. simpl. done.
Qed.

Lemma transaction_sign_events (L : Lib) (W : World) (c : Context) (args : TxArgs)
    (f : Found) (u : URL) (a : Account) (p : string) (tx : Transaction) (chainID : N) :
  EvSignTx u a p tx chainID ∈ (transaction_sign L W c args f).1 ->
  u = wURL (wallet f) /\ a = acct f /\ tx = transaction_tx args /\
  chainID = a_chainID args /\
  (getPassphrase W c (needPassphrase f)).2 = Ok p.
Proof.
  unfold transaction_sign. intros [H|(p' & Hp & H)]%elem_of_mbind.
  { apply getPassphrase_events in H. repeat case_match; intuition discriminate. }
  apply elem_of_mbind in H as [H|(signed & _ & H)].
  { simpl in H. apply list_elem_of_singleton in H as [= -> -> -> -> ->]. done. }
  destruct signed as [signed|]; [|by apply elem_of_nil in H].
  simpl in H. by apply list_elem_of_singleton in H.
Qed.

(** A signing call in the trace of the [transaction] action comes from
    [transaction_sign], for the flags that were parsed and an account that
    the scan found. *)
Lemma transaction_Action_sign_event (L : Lib) (W : World) (c : Context)
    (u : URL) (a : Account) (p : string) (tx : Transaction) (chainID : N) :
  EvSignTx u a p tx chainID ∈ (transaction_Action L W c).1 ->
  exists args f,
    (transaction_flags L c).2 = Ok args /\
    (Scan L (ManagerWallets L (hub_backends W (ctxString c "key-store"))) (a_from args)).2
      = Ok (Some f) /\
    EvSignTx u a p tx chainID ∈ (transaction_sign L W c args f).1.
Proof.
  unfold transaction_Action.
  intros [H|(args & Hfl & H)]%elem_of_mbind.
  { rewrite transaction_flags_trace in H. by apply elem_of_nil in H. }
  apply elem_of_mbind in H as [H|(ws & Hws & H)].
  { apply getWallets_events in H as [s [=]]. }
  rewrite getWallets_eq in Hws. injection Hws as <-.
  apply elem_of_mbind in H as [H|(found & Hsc & H)].
  { apply Scan_events in H as (x & _ & _ & [[=]|(j & _ & [=])]). }
  destruct found as [f|]; [|by apply elem_of_nil in H].
  by exists args, f.
Qed.


(** ** The scan for the account *)

Lemma mbind_ExitError_inv {A B} (f : A -> M B) (m : M A) msg code :
  (m ≫= f).2 = ExitError msg code ->
  m.2 = ExitError msg code \/ exists a, m.2 = Ok a /\ (f a).2 = ExitError msg code.
Proof.
  destruct m as [t [a|msg' code'|]]; simpl; intros H;
    [right; by exists a|left; by injection H as -> ->|discriminate H].
Qed.

Lemma mbind_Panic_inv {A B} (f : A -> M B) (m : M A) :
  (m ≫= f).2 = Panic -> m.2 = Panic \/ exists a, m.2 = Ok a /\ (f a).2 = Panic.
Proof.
  destruct m as [t [a|msg' code'|]]; simpl; intros H;
    [right; by exists a|discriminate H|by left].
Qed.

Section Scanning.
Context (L : Lib).

Lemma hd_pathstrs_eq :
  hd_pathstrs = ["m/44'/60'/0'/0"; "m/44'/60'/0'/1"; "m/44'/60'/0'/2"; "m/44'/60'/0'/3"].
Proof. reflexivity. Qed.

Lemma scanAccounts_Some (accts : list Account) (from : Address) (y : Account) :
  scanAccounts accts from = Some y -> y ∈ accts /\ Addr y = from.
Proof.
  induction accts as [|y' rest IH]; simpl; [done|].
  case_bool_decide as Hy.
  - intros [= <-]. split; [left|done].
  - intros [Hin Heq]%IH. split; [by right|done].
Qed.

Lemma scanAccounts_None (accts : list Account) (from : Address) :
  scanAccounts accts from = None <-> forall y, y ∈ accts -> Addr y <> from.
Proof.
  induction accts as [|y' rest IH]; simpl.
  - split; [|done]. intros _ y Hy. by apply elem_of_nil in Hy.
  - case_bool_decide as Hy.
    + split; [done|]. intros Hall. exfalso. apply (Hall y'); [left|done].
    + rewrite IH. split.
      * intros Hall y [->|Hin]%elem_of_cons; auto.
      * intros Hall y Hin. apply Hall. by right.
Qed.

(** The derivation loop of the scan ends in one of three ways. *)
Lemma scanDerive_outcome (x : Wallet) (js : list N) (from : Address) :
  match (scanDerive L x js from).2 with
  | Ok (Some y) =>
      Addr y = from /\ exists j, j ∈ js /\ wDerive x (hd_path L j) true = Some y
  | Ok None =>
      forall j, j ∈ js -> exists y, wDerive x (hd_path L j) true = Some y /\ Addr y <> from
  | ExitError msg code =>
      msg = "ethsign: Ledger needs to be in Ethereum app with browser support off" /\
      code = 1 /\ exists j, j ∈ js /\ wDerive x (hd_path L j) true = None
  | Panic => False
  end.
Proof.
  induction js as [|j rest IH]; simpl.
  - intros j Hj. by apply elem_of_nil in Hj.
  - fold (hd_path L j). destruct (wDerive x (hd_path L j) true) as [y|] eqn:Hd; simpl.
    + case_bool_decide as Hy; simpl.
      * split; [done|]. exists j. split; [left|done].
      * destruct (scanDerive L x rest from).2 as [[y'|]|msg code|].
        -- destruct IH as [? (j' & ? & ?)]. split; [done|]. exists j'. split; [by right|done].
        -- intros j' [->|Hin]%elem_of_cons; eauto.
        -- destruct IH as (? & ? & j' & ? & ?). split_and!; [done..|].
           exists j'. split; [by right|done].
        -- done.
    + split_and!; [done..|]. exists j. split; [left|done].
Qed.

(** The scan ends in one of three ways: with the account, in a key store
    wallet or derived by a Ledger wallet at one of the four paths; without
    one, after every key store account and every derivation of every Ledger
    wallet failed to match; or with the exit error of a failed derivation. *)
Lemma Scan_outcome (wallets : list Wallet) (from : Address) :
  match (Scan L wallets from).2 with
  | Ok (Some f) =>
      wallet f ∈ wallets /\ Addr (acct f) = from /\
      ((Scheme (wURL (wallet f)) = "keystore" /\ acct f ∈ wAccounts (wallet f) /\
        needPassphrase f = true) \/
       (Scheme (wURL (wallet f)) = "ledger" /\
        (exists j, j ∈ [0; 1; 2; 3] /\ wDerive (wallet f) (hd_path L j) true = Some (acct f)) /\
        needPassphrase f = false))
  | Ok None =>
      forall x, x ∈ wallets ->
        (Scheme (wURL x) = "keystore" -> forall y, y ∈ wAccounts x -> Addr y <> from) /\
        (Scheme (wURL x) = "ledger" ->
         forall j, j ∈ [0; 1; 2; 3] ->
           exists y, wDerive x (hd_path L j) true = Some y /\ Addr y <> from)
  | ExitError msg code =>
      msg = "ethsign: Ledger needs to be in Ethereum app with browser support off" /\
      code = 1 /\
      exists x j, x ∈ wallets /\ Scheme (wURL x) = "ledger" /\ j ∈ [0; 1; 2; 3] /\
        wDerive x (hd_path L j) true = None
  | Panic => False
  end.
Proof.
  induction wallets as [|x rest IH]; cbn [Scan].
  { simpl. intros x Hx. by apply elem_of_nil in Hx. }
  assert (match (Scan L rest from).2 with
          | Ok None =>
              (Scheme (wURL x) = "keystore" -> forall y, y ∈ wAccounts x -> Addr y <> from) ->
              (Scheme (wURL x) = "ledger" ->
               forall j, j ∈ [0; 1; 2; 3] ->
                 exists y, wDerive x (hd_path L j) true = Some y /\ Addr y <> from) ->
              forall x', x' ∈ x :: rest ->
                (Scheme (wURL x') = "keystore" ->
                 forall y, y ∈ wAccounts x' -> Addr y <> from) /\
                (Scheme (wURL x') = "ledger" ->
                 forall j, j ∈ [0; 1; 2; 3] ->
                   exists y, wDerive x' (hd_path L j) true = Some y /\ Addr y <> from)
          | _ => True
          end) as Hnone.
  { destruct (Scan L rest from).2 as [[f|]|msg code|]; [done| |done..].
    intros Hk Hl x' [->|Hin]%elem_of_cons; [done|by apply IH]. }
  assert (match (Scan L rest from).2 with
          | Ok (Some f) =>
              wallet f ∈ x :: rest
          | ExitError msg code =>
              exists x' j, x' ∈ x :: rest /\ Scheme (wURL x') = "ledger" /\
                j ∈ [0; 1; 2; 3] /\ wDerive x' (hd_path L j) true = None
          | _ => True
          end) as Hrest.
  { destruct (Scan L rest from).2 as [[f|]|msg code|]; [|done| |done].
    - right. apply IH.
    - destruct IH as (_ & _ & x' & j & ? & ? & ? & ?). exists x', j.
      split_and!; [by right|done..]. }
  case_bool_decide as Hks.
  - destruct (scanAccounts (wAccounts x) from) as [y|] eqn:Hacc.
    + apply scanAccounts_Some in Hacc as [Hin Heq]. simpl.
      split_and!; [left|done|]. left. done.
    + destruct (Scan L rest from).2 as [[f|]|msg code|]; [| |tauto|done].
      * destruct IH as (_ & ? & ?). done.
      * apply Hnone; [intros _; by apply scanAccounts_None|].
        intros Hl. rewrite Hks in Hl. discriminate.
  - case_bool_decide as Hl.
    + pose proof (scanDerive_outcome x [0; 1; 2; 3] from) as Hd.
      rewrite !mbind_snd. cbn [emit snd].
      destruct (scanDerive L x [0; 1; 2; 3] from).2 as [[y|]|msg code|]; [| | |done].
      * destruct Hd as [Heq Hj]. simpl. split_and!; [left|done|]. right. done.
      * destruct (Scan L rest from).2 as [[f|]|msg code|]; [| |tauto|done].
        -- destruct IH as (_ & ? & ?). done.
        -- apply Hnone; [done|]. intros _. done.
      * destruct Hd as (-> & -> & j & Hj & Hnone'). split_and!; [done..|].
        exists x, j. split_and!; [left|done..].
    + destruct (Scan L rest from).2 as [[f|]|msg code|]; [| |tauto|done].
      * destruct IH as (_ & ? & ?). done.
      * apply Hnone; intros Hs; by rewrite Hs in *.
Qed.

End Scanning.

Section Locating.
Context (L : Lib) (W : World).



Lemma hub_errors_events (e : Event) : e ∈ hub_errors W -> exists s, e = EvStderr s.
Proof.
  intros H. apply (getWallets_events L W "").
  by rewrite getWallets_eq.
Qed.

Lemma scan_no_sign_call (wallets : list Wallet) (from : Address) :
  Forall (fun e => is_sign_call e = false) (hub_errors W ++ (Scan L wallets from).1).
Proof.
  apply Forall_forall. intros e [H|H]%elem_of_app.
  - by apply hub_errors_events in H as [s ->].
  - by apply Scan_events in H as (x & _ & _ & [->|(j & _ & ->)]).
Qed.

(** The two actions after their flags: the wallets are fetched and scanned,
    and the outcome of the scan decides how the action goes on. *)
Lemma transaction_Action_eq (c : Context) (args : TxArgs) :
  (transaction_flags L c).2 = Ok args ->
  let sc := Scan L (ManagerWallets L (hub_backends W (ctxString c "key-store")))
              (a_from args) in
  transaction_Action L W c =
  match sc.2 with
  | Ok (Some f) =>
      (hub_errors W ++ sc.1 ++ (transaction_sign L W c args f).1,
       (transaction_sign L W c args f).2)
  | Ok None => (hub_errors W ++ sc.1, ExitError "ethsign: account not found" 1)
  | ExitError msg code => (hub_errors W ++ sc.1, ExitError msg code)
  | Panic => (hub_errors W ++ sc.1, Panic)
  end.
Proof.
  intros Hfl sc. unfold transaction_Action.
  pose proof (transaction_flags_trace L c) as Ht.
  destruct (transaction_flags L c) as [t o]. simpl in Hfl, Ht. subst t o.
  rewrite mbind_Ok, getWallets_eq, mbind_Ok. fold sc.
  destruct sc as [ts [[f|]|msg code|]]; simpl; rewrite ?app_nil_r; try done.
Qed.

Lemma message_Action_eq (c : Context) (from : Address) (data : list byte) :
  (message_flags L c).2 = Ok (from, data) ->
  let sc := Scan L (ManagerWallets L (hub_backends W (ctxString c "key-store"))) from in
  message_Action L W c =
  match sc.2 with
  | Ok (Some f) =>
      (hub_errors W ++ sc.1 ++ (message_sign L W c data f).1,
       (message_sign L W c data f).2)
  | Ok None => (hub_errors W ++ sc.1, ExitError "ethsign: account not found" 1)
  | ExitError msg code => (hub_errors W ++ sc.1, ExitError msg code)
  | Panic => (hub_errors W ++ sc.1, Panic)
  end.
Proof.
  intros Hfl sc. unfold message_Action.
  pose proof (message_flags_trace L c) as Ht.
  destruct (message_flags L c) as [t o]. simpl in Hfl, Ht. subst t o.
  rewrite mbind_Ok, getWallets_eq, mbind_Ok. fold sc.
  destruct sc as [ts [[f|]|msg code|]]; simpl; rewrite ?app_nil_r; try done.
Qed.

End Locating.

(** ** C1: locating the account *)




(** ** C3: the derivation paths *)

Lemma take_through_prefix {A} (stop : A -> bool) (l : list A) :
  take_through stop l `prefix_of` l.
Proof.
  induction l as [|a rest IH]; simpl; [done|].
  apply prefix_cons. destruct (stop a); [apply prefix_nil|done].
Qed.




Lemma Forall_mbind {A B} (P : Event -> Prop) (f : A -> M B) (m : M A) :
  Forall P m.1 -> (forall a, m.2 = Ok a -> Forall P (f a).1) -> Forall P (m ≫= f).1.
Proof.
  destruct m as [t [a|msg code|]]; simpl; intros Ht Hf; [|done..].
  apply Forall_app. auto.
Qed.


Section FixedPaths.
Context (L : Lib) (W : World).










End FixedPaths.




(** ** Passphrase and signing *)

Section Signing.
Context (L : Lib) (W : World).

Lemma getPassphrase_true (c : Context) :
  getPassphrase W c true =
  if bool_decide (ctxString c "passphrase-file" = "") then
    ([EvStderr "Ethereum account passphrase (not echoed): "; EvReadPassword],
     match ReadPassword W with
     | Some bytes => Ok bytes
     | None => ExitError "ethsign: failed to read passphrase" 1
     end)
  else
    ([EvReadFile (ctxString c "passphrase-file")],
     match ReadFile W (ctxString c "passphrase-file") with
     | Some passphraseFile => Ok (strings_TrimSuffix passphraseFile nl)
     | None => ExitError "ethsign: failed to read passphrase file" 1
     end).
Proof.
  unfold getPassphrase. case_bool_decide; simpl.
  - by destruct (ReadPassword W).
  - by destruct (ReadFile W _).
Qed.

Lemma getPassphrase_false (c : Context) :
  getPassphrase W c false =
  ([EvStderr ("Waiting for hardware wallet confirmation..." +:+ nl)], Ok "").
Proof. reflexivity. Qed.

(** What the [transaction] action does once the account is found. *)
Lemma transaction_sign_eq (c : Context) (args : TxArgs) (f : Found) :
  let gp := getPassphrase W c (needPassphrase f) in
  transaction_sign L W c args f =
  match gp.2 with
  | Ok p =>
      let call := EvSignTx (wURL (wallet f)) (acct f) p (transaction_tx args) (a_chainID args) in
      match wSignTxWithPassphrase (wallet f) (acct f) p (transaction_tx args) (a_chainID args) with
      | Some signed =>
          (gp.1 ++ [call; EvStdout (hexutil_Encode (EncodeToBytes L signed).1 +:+ nl)], Ok tt)
      | None => (gp.1 ++ [call], ExitError "ethsign: failed to sign tx" 1)
      end
  | ExitError msg code => (gp.1, ExitError msg code)
  | Panic => (gp.1, Panic)
  end.
Proof.
  intros gp. unfold transaction_sign. fold gp.
  destruct gp as [t [p|msg code|]]; [|done..].
  rewrite mbind_Ok. simpl.
  by destruct (wSignTxWithPassphrase _ _ _ _ _).
Qed.

(** What the [message] action does once the account is found. *)
Lemma message_sign_eq (c : Context) (data : list byte) (f : Found) :
  let gp := getPassphrase W c (needPassphrase f) in
  message_sign L W c data f =
  match gp.2 with
  | Ok p =>
      let call := EvSignHash (wURL (wallet f)) (acct f) p (signHash L data) in
      match wSignHashWithPassphrase (wallet f) (acct f) p (signHash L data) with
      | Some signature =>
          match signature !! 64%nat with
          | Some v =>
              (gp.1 ++ [call; EvStdout (hexutil_Encode (<[64%nat := byte_add v 27]> signature) +:+ nl)],
               Ok tt)
          | None => (gp.1 ++ [call], Panic)
          end
      | None => (gp.1 ++ [call], ExitError "ethsign: failed to sign tx" 1)
      end
  | ExitError msg code => (gp.1, ExitError msg code)
  | Panic => (gp.1, Panic)
  end.
Proof.
  intros gp. unfold message_sign. fold gp.
  destruct gp as [t [p|msg code|]]; [|done..].
  rewrite mbind_Ok. simpl.
  destruct (wSignHashWithPassphrase _ _ _ _) as [signature|]; [|done].
  simpl. by destruct (signature !! 64%nat).
Qed.

Lemma message_Action_sign_event (c : Context) (u : URL) (a : Account) (p : string)
    (h : list byte) :
  EvSignHash u a p h ∈ (message_Action L W c).1 ->
  exists from data f,
    (message_flags L c).2 = Ok (from, data) /\
    (Scan L (ManagerWallets L (hub_backends W (ctxString c "key-store"))) from).2
      = Ok (Some f) /\
    EvSignHash u a p h ∈ (message_sign L W c data f).1.
Proof.
  unfold message_Action.
  intros [H|([from data] & Hfl & H)]%elem_of_mbind.
  { rewrite message_flags_trace in H. by apply elem_of_nil in H. }
  apply elem_of_mbind in H as [H|(ws & Hws & H)].
  { apply getWallets_events in H as [s [=]]. }
  rewrite getWallets_eq in Hws. injection Hws as <-.
  apply elem_of_mbind in H as [H|(found & Hsc & H)].
  { apply Scan_events in H as (x & _ & _ & [[=]|(j & _ & [=])]). }
  destruct found as [f|]; [|by apply elem_of_nil in H].
  by exists from, data, f.
Qed.

End Signing.

Lemma found_in_keystore (L : Lib) (wallets : list Wallet) (from : Address) (f : Found) :
  (Scan L wallets from).2 = Ok (Some f) ->
  Scheme (wURL (wallet f)) = "keystore" -> needPassphrase f = true.
Proof.
  intros Hsc Hks. pose proof (Scan_outcome L wallets from) as H. rewrite Hsc in H.
  destruct H as (_ & _ & [(_ & _ & ?)|(Hl & _)]); [done|].
  rewrite Hks in Hl. discriminate.
Qed.

Lemma found_on_ledger (L : Lib) (wallets : list Wallet) (from : Address) (f : Found) :
  (Scan L wallets from).2 = Ok (Some f) ->
  Scheme (wURL (wallet f)) = "ledger" -> needPassphrase f = false.
Proof.
  intros Hsc Hl. pose proof (Scan_outcome L wallets from) as H. rewrite Hsc in H.
  destruct H as (_ & _ & [(Hks & _)|(_ & _ & ?)]); [|done].
  rewrite Hl in Hks. discriminate.
Qed.

(** C4. When the scan finds the account in a key store wallet, the
    passphrase is acquired as follows, in the [transaction] and in the
    [message] action alike. If [--passphrase-file] is not empty, that file is
    read; a failed read ends the action with ["ethsign: failed to read
    passphrase file"], and otherwise the passphrase is the content of the
    file (without one trailing newline). If the flag is empty, the prompt is
    written to standard error and the passphrase is read from the terminal
    without echo. These events follow the scan in the trace, an exit error
    of the acquisition is the exit error of the action, and a signing call
    receives the passphrase so acquired. *)
Theorem keystore_passphrase (L : Lib) (W : World) (c : Context) (from : Address) (f : Found) :
  let wallets := ManagerWallets L (hub_backends W (ctxString c "key-store")) in
  let sc := Scan L wallets from in
  let file := ctxString c "passphrase-file" in
  let gp := getPassphrase W c (needPassphrase f) in
  sc.2 = Ok (Some f) ->
  Scheme (wURL (wallet f)) = "keystore" ->
  gp = (if bool_decide (file = "") then
          ([EvStderr "Ethereum account passphrase (not echoed): "; EvReadPassword],
           match ReadPassword W with
           | Some bytes => Ok bytes
           | None => ExitError "ethsign: failed to read passphrase" 1
           end)
        else
          ([EvReadFile file],
           match ReadFile W file with
           | Some passphraseFile => Ok (strings_TrimSuffix passphraseFile nl)
           | None => ExitError "ethsign: failed to read passphrase file" 1
           end)) /\
  (forall args, (transaction_flags L c).2 = Ok args -> a_from args = from ->
     hub_errors W ++ sc.1 ++ gp.1 `prefix_of` (transaction_Action L W c).1 /\
     (forall msg code, gp.2 = ExitError msg code ->
        transaction_Action L W c = (hub_errors W ++ sc.1 ++ gp.1, ExitError msg code)) /\
     (forall u a p tx chainID,
        EvSignTx u a p tx chainID ∈ (transaction_Action L W c).1 -> gp.2 = Ok p)) /\
  (forall data, (message_flags L c).2 = Ok (from, data) ->
     hub_errors W ++ sc.1 ++ gp.1 `prefix_of` (message_Action L W c).1 /\
     (forall msg code, gp.2 = ExitError msg code ->
        message_Action L W c = (hub_errors W ++ sc.1 ++ gp.1, ExitError msg code)) /\
     (forall u a p h,
        EvSignHash u a p h ∈ (message_Action L W c).1 -> gp.2 = Ok p)).
Proof.
  intros wallets sc file gp Hsc Hks.
  split_and!.
  - subst gp. rewrite (found_in_keystore L wallets from f Hsc Hks).
    apply getPassphrase_true.
  - intros args Hfl <-.
    pose proof (transaction_Action_eq L W c args Hfl) as Heq. cbv zeta in Heq.
    fold wallets in Heq. fold sc in Heq. rewrite Hsc in Heq.
    pose proof (transaction_sign_eq L W c args f) as Hsg. cbv zeta in Hsg. fold gp in Hsg.
    split_and!.
    + rewrite Heq, Hsg. cbn [fst]. do 2 apply prefix_app.
      destruct gp.2; [destruct (wSignTxWithPassphrase _ _ _ _ _)|..];
        cbn [fst]; try done; by apply prefix_app_r.
    + intros msg code Hex. rewrite Heq, Hsg, Hex. done.
    + intros u a p tx chainID Hin.
      apply transaction_Action_sign_event in Hin as (args' & f' & Hfl' & Hsc' & Hin).
      rewrite Hfl in Hfl'. injection Hfl' as <-.
      fold wallets in Hsc'. fold sc in Hsc'. rewrite Hsc in Hsc'. injection Hsc' as <-.
      by apply transaction_sign_events in Hin as (_ & _ & _ & _ & ?).
  - intros data Hfl.
    pose proof (message_Action_eq L W c from data Hfl) as Heq. cbv zeta in Heq.
    fold wallets in Heq. fold sc in Heq. rewrite Hsc in Heq.
    pose proof (message_sign_eq L W c data f) as Hsg. cbv zeta in Hsg. fold gp in Hsg.
    split_and!.
    + rewrite Heq, Hsg. cbn [fst]. do 2 apply prefix_app.
      destruct gp.2; [destruct (wSignHashWithPassphrase _ _ _ _) as [sig|];
                      [destruct (sig !! 64%nat)|]|..];
        cbn [fst]; try done; by apply prefix_app_r.
    + intros msg code Hex. rewrite Heq, Hsg, Hex. done.
    + intros u a p h Hin.
      apply message_Action_sign_event in Hin as (from' & data' & f' & Hfl' & Hsc' & Hin).
      rewrite Hfl in Hfl'. injection Hfl' as <- <-.
      fold wallets in Hsc'. fold sc in Hsc'. rewrite Hsc in Hsc'. injection Hsc' as <-.
      by apply message_sign_events in Hin as (_ & _ & _ & ?).
Qed.

Lemma keystore_passphrase_witness :
  getPassphrase (Sample.world [] []) (Sample.txFlags "0xaa01") true =
  ([EvReadFile "pw.txt"], Ok "secret").
Proof.
  exact (proj1 (keystore_passphrase Sample.lib (Sample.world [] []) (Sample.txFlags "0xaa01")
                  Sample.addrA
                  {| wallet := Sample.keystoreWallet;
                     acct := {| Addr := Sample.addrA; AccURL := Sample.keystoreURL |};
                     needPassphrase := true |}
                  eq_refl eq_refl)).
Defined.

Lemma scan_no_passphrase_read (L : Lib) (W : World) (wallets : list Wallet) (from : Address) :
  Forall (fun e => is_passphrase_read e = false) (hub_errors W ++ (Scan L wallets from).1).
Proof.
  apply Forall_forall. intros e [H|H]%elem_of_app.
  - by apply (hub_errors_events L) in H as [s ->].
  - by apply Scan_events in H as (x & _ & _ & [->|(j & _ & ->)]).
Qed.

(** C7. When the scan finds the account on a hardware wallet (a wallet with
    URL scheme [ledger]), the rest of the [transaction] action is: the notice
    ["Waiting for hardware wallet confirmation...\n"] on standard error, the
    signing call with the empty passphrase, and then the output of the
    signed transaction or the exit error of a failed signing. The [message]
    action does the same with its signing call. In the whole trace there is
    no read of a passphrase file and no read from the terminal. *)
Theorem hardware_wallet_no_passphrase (L : Lib) (W : World) (c : Context)
    (from : Address) (f : Found) :
  let wallets := ManagerWallets L (hub_backends W (ctxString c "key-store")) in
  let sc := Scan L wallets from in
  let notice := EvStderr ("Waiting for hardware wallet confirmation..." +:+ nl) in
  sc.2 = Ok (Some f) ->
  Scheme (wURL (wallet f)) = "ledger" ->
  (forall args, (transaction_flags L c).2 = Ok args -> a_from args = from ->
     let call := EvSignTx (wURL (wallet f)) (acct f) "" (transaction_tx args) (a_chainID args) in
     transaction_Action L W c =
       match wSignTxWithPassphrase (wallet f) (acct f) "" (transaction_tx args) (a_chainID args) with
       | Some signed =>
           (hub_errors W ++ sc.1 ++
              [notice; call; EvStdout (hexutil_Encode (EncodeToBytes L signed).1 +:+ nl)],
            Ok tt)
       | None =>
           (hub_errors W ++ sc.1 ++ [notice; call], ExitError "ethsign: failed to sign tx" 1)
       end /\
     Forall (fun e => is_passphrase_read e = false) (transaction_Action L W c).1) /\
  (forall data, (message_flags L c).2 = Ok (from, data) ->
     let call := EvSignHash (wURL (wallet f)) (acct f) "" (signHash L data) in
     message_Action L W c =
       match wSignHashWithPassphrase (wallet f) (acct f) "" (signHash L data) with
       | Some signature =>
           match signature !! 64%nat with
           | Some v =>
               (hub_errors W ++ sc.1 ++
                  [notice; call;
                   EvStdout (hexutil_Encode (<[64%nat := byte_add v 27]> signature) +:+ nl)],
                Ok tt)
           | None => (hub_errors W ++ sc.1 ++ [notice; call], Panic)
           end
       | None =>
           (hub_errors W ++ sc.1 ++ [notice; call], ExitError "ethsign: failed to sign tx" 1)
       end /\
     Forall (fun e => is_passphrase_read e = false) (message_Action L W c).1).
Proof.
  intros wallets sc notice Hsc Hl.
  pose proof (found_on_ledger L wallets from f Hsc Hl) as Hneed.
  pose proof (scan_no_passphrase_read L W wallets from) as Hscan. fold sc in Hscan.
  split.
  - intros args Hfl <- call.
    pose proof (transaction_Action_eq L W c args Hfl) as Heq. cbv zeta in Heq.
    fold wallets in Heq. fold sc in Heq. rewrite Hsc in Heq.
    pose proof (transaction_sign_eq L W c args f) as Hsg. cbv zeta in Hsg.
    rewrite Hneed, getPassphrase_false in Hsg. cbn [fst snd] in Hsg.
    rewrite Hsg in Heq. rewrite Heq. fold call notice.
    destruct (wSignTxWithPassphrase _ _ _ _ _) as [signed|]; cbn [fst snd app].
    + split; [done|]. rewrite app_assoc. apply Forall_app. split; [done|].
      by repeat constructor.
    + split; [done|]. rewrite app_assoc. apply Forall_app. split; [done|].
      by repeat constructor.
  - intros data Hfl call.
    pose proof (message_Action_eq L W c from data Hfl) as Heq. cbv zeta in Heq.
    fold wallets in Heq. fold sc in Heq. rewrite Hsc in Heq.
    pose proof (message_sign_eq L W c data f) as Hsg. cbv zeta in Hsg.
    rewrite Hneed, getPassphrase_false in Hsg. cbn [fst snd] in Hsg.
    rewrite Hsg in Heq. rewrite Heq. fold call notice.
    destruct (wSignHashWithPassphrase _ _ _ _) as [sig|]; [destruct (sig !! 64%nat)|];
      cbn [fst snd app]; (split; [done|]); rewrite app_assoc; apply Forall_app;
      (split; [done|]); by repeat constructor.
Qed.

Lemma hardware_wallet_no_passphrase_witness :
  let W := Sample.world [Sample.hardwareWallet "ledger"] [] in
  Forall (fun e => is_passphrase_read e = false)
    (message_Action Sample.lib W (Sample.msgFlags "0xbb02" "0xabcd")).1.
Proof.
  intros W.
  exact (proj2 (proj2 (hardware_wallet_no_passphrase Sample.lib W
                  (Sample.msgFlags "0xbb02" "0xabcd") Sample.addrB
                  {| wallet := Sample.hardwareWallet "ledger";
                     acct := {| Addr := Sample.addrB;
                                AccURL := wURL (Sample.hardwareWallet "ledger") |};
                     needPassphrase := false |}
                  eq_refl eq_refl)
               [xab; xcd] eq_refl)).
Defined.

(** ** C6: [--to], [--create] and the transaction that is built *)





(** ** C5 and C9: what is printed *)

Lemma stdout_app (t1 t2 : list Event) : stdout (t1 ++ t2) = stdout t1 ++ stdout t2.
Proof. apply omap_app. Qed.

Lemma stdout_silent (tr : list Event) :
  (forall e, e ∈ tr -> forall s, e <> EvStdout s) -> stdout tr = [].
Proof.
  induction tr as [|e rest IH]; intros Hno; [done|].
  unfold stdout. simpl. fold (stdout rest).
  destruct e; try (apply IH; intros e' He'; apply Hno; by right).
  exfalso. eapply Hno; [left|done].
Qed.

Lemma stdout_scan (L : Lib) (W : World) (wallets : list Wallet) (from : Address) :
  stdout (hub_errors W ++ (Scan L wallets from).1) = [].
Proof.
  apply stdout_silent. intros e [H|H]%elem_of_app s.
  - by apply (hub_errors_events L) in H as [s' ->].
  - by apply Scan_events in H as (x & _ & _ & [->|(j & _ & ->)]).
Qed.

Lemma stdout_getPassphrase (W : World) (c : Context) (need : bool) :
  stdout (getPassphrase W c need).1 = [].
Proof.
  apply stdout_silent. intros e He s. apply getPassphrase_events in He.
  repeat case_match; intuition congruence.
Qed.


Lemma message_Action_Ok_flags (L : Lib) (W : World) (c : Context) :
  (message_Action L W c).2 = Ok tt ->
  exists from data, (message_flags L c).2 = Ok (from, data).
Proof.
  unfold message_Action. rewrite mbind_snd.
  destruct (message_flags L c).2 as [[from data]|msg code|]; [|done..].
  by exists from, data.
Qed.



Lemma byte_add_to_N (b : byte) (k : N) :
  Byte.to_N (byte_add b k) = (Byte.to_N b + k) mod 256.
Proof.
  unfold byte_add.
  destruct (Byte.of_N ((Byte.to_N b + k) mod 256)) as [r|] eqn:Hr.
  - by apply Byte.to_of_N.
  - apply Byte.of_N_None_iff in Hr.
    pose proof (N.mod_upper_bound (Byte.to_N b + k) 256). lia.
Qed.

Lemma hex_EncodeToString_app (b1 b2 : list byte) :
  hex_EncodeToString (b1 ++ b2) = hex_EncodeToString b1 +:+ hex_EncodeToString b2.
Proof.
  induction b1 as [|v rest IH]; [done|].
  simpl. by rewrite IH, !append_String.
Qed.

(** C9. When the [message] action succeeds, a wallet was asked to sign and
    returned a signature with a byte [v] at index 64, and standard output
    received exactly one line: the hex encoding of the signature in which
    the byte at index 64 is [v + 27] modulo 2^8, so that 0 becomes 27 and 1
    becomes 28. For a 65-byte signature this is the last byte, and the line
    is ["0x"], the hex digits of the first 64 bytes as they were, and the hex
    digits of the new last byte. *)
Theorem message_output (L : Lib) (W : World) (c : Context) (tr : list Event) :
  message_Action L W c = (tr, Ok tt) ->
  exists w a p h signature v,
    w ∈ ManagerWallets L (hub_backends W (ctxString c "key-store")) /\
    EvSignHash (wURL w) a p h ∈ tr /\
    wSignHashWithPassphrase w a p h = Some signature /\
    signature !! 64%nat = Some v /\
    stdout tr = [hexutil_Encode (<[64%nat := byte_add v 27]> signature) +:+ nl] /\
    Byte.to_N (byte_add v 27) = (Byte.to_N v + 27) mod 2 ^ 8 /\
    (Byte.to_N v = 0 -> Byte.to_N (byte_add v 27) = 27) /\
    (Byte.to_N v = 1 -> Byte.to_N (byte_add v 27) = 28) /\
    (List.length signature = 65%nat ->
     <[64%nat := byte_add v 27]> signature = take 64 signature ++ [byte_add v 27] /\
     hexutil_Encode (<[64%nat := byte_add v 27]> signature) =
       "0x" +:+ hex_EncodeToString (take 64 signature)
            +:+ hex_EncodeToString [byte_add v 27]).
Proof.
  intros Hrun.
  destruct (message_Action_Ok_flags L W c) as (from & data & Hfl); [by rewrite Hrun|].
  rewrite (message_Action_eq L W c from data Hfl) in Hrun. cbv zeta in Hrun.
  pose proof (Scan_outcome L (ManagerWallets L (hub_backends W (ctxString c "key-store")))
                from) as Hout.
  pose proof (stdout_scan L W (ManagerWallets L (hub_backends W (ctxString c "key-store")))
                from) as Hquiet.
  destruct (Scan L _ _) as [ts [[f|]|msg code|]]; cbn [fst snd] in *; [|done..].
  rewrite message_sign_eq in Hrun. cbv zeta in Hrun.
  pose proof (stdout_getPassphrase W c (needPassphrase f)) as Hgp.
  destruct (getPassphrase W c (needPassphrase f)) as [tp [p|msg code|]];
    cbn [fst snd] in *; [|done..].
  destruct (wSignHashWithPassphrase _ _ _ _) as [signature|] eqn:Hsig; [|done].
  destruct (signature !! 64%nat) as [v|] eqn:Hv; [|done].
  injection Hrun as <-.
  exists (wallet f), (acct f), p, (signHash L data), signature, v.
  pose proof (byte_add_to_N v 27) as Hadd.
  split_and!; [by destruct Hout| |done|done| |done| | |].
  - rewrite !elem_of_app. do 3 right. left.
  - rewrite app_assoc, stdout_app, Hquiet, stdout_app, Hgp. done.
  - intros Hv0. by rewrite Hadd, Hv0.
  - intros Hv1. by rewrite Hadd, Hv1.
  - intros Hlen.
    assert (<[64%nat := byte_add v 27]> signature = take 64 signature ++ [byte_add v 27])
      as Hins.
    { rewrite insert_take_drop by lia. by rewrite drop_ge by lia. }
    split; [done|].
    rewrite Hins. unfold hexutil_Encode.
    by rewrite hex_EncodeToString_app.
Qed.

Lemma message_output_witness :
  let run := message_Action Sample.lib (Sample.world [] []) (Sample.msgFlags "0xaa01" "abcd") in
  exists w a p h signature v,
    w ∈ ManagerWallets Sample.lib (hub_backends (Sample.world [] []) "/keys") /\
    EvSignHash (wURL w) a p h ∈ run.1 /\
    wSignHashWithPassphrase w a p h = Some signature /\
    signature !! 64%nat = Some v /\
    stdout run.1 = [hexutil_Encode (<[64%nat := byte_add v 27]> signature) +:+ nl] /\
    Byte.to_N (byte_add v 27) = (Byte.to_N v + 27) mod 2 ^ 8 /\
    (Byte.to_N v = 0 -> Byte.to_N (byte_add v 27) = 27) /\
    (Byte.to_N v = 1 -> Byte.to_N (byte_add v 27) = 28) /\
    (List.length signature = 65%nat ->
     <[64%nat := byte_add v 27]> signature = take 64 signature ++ [byte_add v 27] /\
     hexutil_Encode (<[64%nat := byte_add v 27]> signature) =
       "0x" +:+ hex_EncodeToString (take 64 signature)
            +:+ hex_EncodeToString [byte_add v 27]).
Proof.
  intros run.
  apply (message_output Sample.lib (Sample.world [] []) (Sample.msgFlags "0xaa01" "abcd")).
  reflexivity.
Defined.

(** ** C10: [--data] with and without the [0x] prefix *)

Lemma ctxString_with_data (c : Context) (s : string) :
  ctxString (with_data c s) "data" = s.
Proof. unfold ctxString, with_data. simpl. by rewrite lookup_insert_eq. Qed.

Lemma ctxString_with_data_ne (c : Context) (s name : string) :
  name <> "data" -> ctxString (with_data c s) name = ctxString c name.
Proof. intros Hne. unfold ctxString, with_data. simpl. by rewrite lookup_insert_ne. Qed.

Lemma mbind_ext {A B} (f g : A -> M B) (m : M A) :
  (forall a, m.2 = Ok a -> f a = g a) -> m ≫= f = m ≫= g.
Proof.
  destruct m as [t [a|msg code|]]; [|done..].
  intros Hfg. rewrite !mbind_Ok, Hfg; done.
Qed.

Lemma getPassphrase_ext (W : World) (c1 c2 : Context) (need : bool) :
  ctxString c1 "passphrase-file" = ctxString c2 "passphrase-file" ->
  getPassphrase W c1 need = getPassphrase W c2 need.
Proof. intros Heq. unfold getPassphrase. by rewrite Heq. Qed.

(** With the empty string the two invocations differ: [--data ""] is a
    missing required parameter, [--data "0x"] signs the empty message. *)
Lemma empty_data_differs :
  let W := Sample.world [] [] in
  let c := Sample.msgFlags "0xaa01" "" in
  strings_HasPrefix "" "0x" = false /\
  message_Action Sample.lib W (with_data c "") =
    ([], ExitError "ethsign: missing required parameter --data" 1) /\
  (message_Action Sample.lib W (with_data c ("0x" +:+ ""))).2 = Ok tt /\
  message_Action Sample.lib W (with_data c "") <>
    message_Action Sample.lib W (with_data c ("0x" +:+ "")).
Proof. split_and!; [reflexivity..|]. vm_compute. discriminate. Qed.

(** C10 (amended). For every string [s] that is not empty and does not
    start with ["0x"], the [message] action with [--data s] and the [message]
    action with [--data "0x" ++ s] are the same computation: same trace, same
    outcome. *)
Theorem data_prefix_normalised (L : Lib) (W : World) (c : Context) (s : string) :
  s <> "" ->
  strings_HasPrefix s "0x" = false ->
  message_Action L W (with_data c s) = message_Action L W (with_data c ("0x" +:+ s)).
Proof.
  intros Hne Hpre.
  assert (message_flags L (with_data c s) = message_flags L (with_data c ("0x" +:+ s)))
    as Hflags.
  { unfold message_flags, message_requireds. cbn [checkRequireds].
    rewrite !ctxString_with_data, !ctxString_with_data_ne by done.
    rewrite Hpre. cbn [negb].
    assert (strings_HasPrefix ("0x" +:+ s) "0x" = true) as -> by (by destruct s).
    cbn [negb]. case_bool_decide; [done|].
    rewrite (bool_decide_eq_false_2 (s = "")) by done.
    by rewrite (bool_decide_eq_false_2 ("0x" +:+ s = "")). }
  unfold message_Action. rewrite Hflags.
  apply mbind_ext. intros [from data] _.
  rewrite !ctxString_with_data_ne by done.
  apply mbind_ext. intros wallets _.
  apply mbind_ext. intros [f|] _; [|done].
  unfold message_sign.
  rewrite (getPassphrase_ext W (with_data c s) (with_data c ("0x" +:+ s))); [done|].
  by rewrite !ctxString_with_data_ne.
Qed.

Lemma data_prefix_normalised_witness :
  message_Action Sample.lib (Sample.world [] []) (with_data (Sample.msgFlags "0xaa01" "") "abcd") =
  message_Action Sample.lib (Sample.world [] []) (with_data (Sample.msgFlags "0xaa01" "") ("0x" +:+ "abcd")).
Proof.
  apply (data_prefix_normalised Sample.lib (Sample.world [] []) (Sample.msgFlags "0xaa01" "") "abcd").
  - discriminate.
  - reflexivity.
Defined.

(** * Further properties of the code *)

(** ** [getWallets] *)


(** ** The scan *)

Lemma scanDerive_trace (L : Lib) (x : Wallet) (js : list N) (from : Address) :
  (scanDerive L x js from).1 =
  (fun p => EvDerive (wURL x) p true)
    <$> take_through (search_stops x from) (hd_path L <$> js).
Proof.
  induction js as [|j rest IH]; [done|].
  cbn [scanDerive fmap list_fmap take_through]. fold (hd_path L j).
  unfold search_stops at 1.
  destruct (wDerive x (hd_path L j) true) as [y|]; [|done].
  case_bool_decide; [done|]. simpl. by rewrite <- IH.
Qed.

Lemma scanDerive_goes_on (L : Lib) (x : Wallet) (js : list N) (from : Address) :
  (scanDerive L x js from).2 = Ok None <->
  existsb (search_stops x from) (hd_path L <$> js) = false.
Proof.
  induction js as [|j rest IH]; [done|].
  cbn [scanDerive fmap list_fmap existsb]. fold (hd_path L j).
  rewrite mbind_snd. cbn [emit snd]. unfold search_stops at 1.
  destruct (wDerive x (hd_path L j) true) as [y|]; [|done].
  case_bool_decide; [done|]. simpl. apply IH.
Qed.

Lemma scanAccounts_goes_on (accts : list Account) (from : Address) :
  scanAccounts accts from = None <->
  existsb (fun y => bool_decide (Addr y = from)) accts = false.
Proof.
  induction accts as [|y rest IH]; [done|].
  simpl. case_bool_decide; [done|]. apply IH.
Qed.

(** X2. Scanning a list of wallets followed by another: if the scan of the
    first list finds the account or fails, that is the result and the second
    list is not touched; otherwise the scan of the second list follows. *)
Theorem Scan_app (L : Lib) (ws1 ws2 : list Wallet) (from : Address) :
  Scan L (ws1 ++ ws2) from =
  match (Scan L ws1 from).2 with
  | Ok None => ((Scan L ws1 from).1 ++ (Scan L ws2 from).1, (Scan L ws2 from).2)
  | _ => Scan L ws1 from
  end.
Proof.
  induction ws1 as [|x rest IH].
  { simpl. by destruct (Scan L ws2 from). }
  cbn [app Scan]. case_bool_decide.
  - destruct (scanAccounts _ _); [done|apply IH].
  - case_bool_decide; [|apply IH].
    destruct (scanDerive L x [0; 1; 2; 3] from) as [td [[y|]|msg code|]]; try done.
    unfold emit. rewrite !mbind_Ok. cbn [fst snd]. rewrite IH.
    destruct (Scan L rest from) as [tr [[f|]|msg code|]]; cbn [fst snd]; try done.
    by rewrite !app_assoc.
Qed.

Lemma Scan_app_witness :
  Scan Sample.lib ([Sample.keystoreWallet] ++ [Sample.lockedWallet]) Sample.addrA =
  Scan Sample.lib [Sample.keystoreWallet] Sample.addrA.
Proof.
  exact (Scan_app Sample.lib [Sample.keystoreWallet] [Sample.lockedWallet] Sample.addrA).
Defined.

(** X3. The trace of the scan. The wallets are examined in order, up to and
    including the first at which the scan ends. A key store wallet is
    examined without any call; a Ledger wallet is opened once, with the
    empty passphrase, and then asked to derive and pin the fixed paths in
    order, up to and including the first that fails or gives the address;
    a wallet of any other scheme gets no call. The scan ends without an
    account exactly when it ends at no wallet. *)
Theorem Scan_trace (L : Lib) (wallets : list Wallet) (from : Address) :
  (Scan L wallets from).1 =
    flat_map (scan_calls L from) (take_through (scan_stops L from) wallets) /\
  ((Scan L wallets from).2 = Ok None <-> existsb (scan_stops L from) wallets = false).
Proof.
  induction wallets as [|x rest [IHt IHo]]; [done|].
  cbn [Scan take_through flat_map existsb]. unfold scan_stops at 1 3, scan_calls at 1.
  case_bool_decide.
  - destruct (scanAccounts (wAccounts x) from) as [y|] eqn:Hacc.
    + destruct (existsb _ (wAccounts x)) eqn:Hex.
      * done.
      * apply scanAccounts_goes_on in Hex. congruence.
    + rewrite (proj1 (scanAccounts_goes_on _ _) Hacc). done.
  - case_bool_decide; [|done].
    pose proof (scanDerive_trace L x [0; 1; 2; 3] from) as Ht.
    pose proof (scanDerive_goes_on L x [0; 1; 2; 3] from) as Ho.
    fold (hd_paths L) in Ht, Ho.
    destruct (existsb (search_stops x from) (hd_paths L)) eqn:Hex.
    + destruct (scanDerive L x [0; 1; 2; 3] from) as [td [[y|]|msg code|]];
        cbn [fst snd] in *.
      * split; [|done]. unfold emit. rewrite !mbind_Ok. simpl.
        by rewrite Ht, !app_nil_r.
      * destruct Ho as [Ho _]. by specialize (Ho eq_refl).
      * split; [|done]. unfold emit. rewrite mbind_Ok. simpl.
        by rewrite Ht, !app_nil_r.
      * split; [|done]. unfold emit. rewrite mbind_Ok. simpl.
        by rewrite Ht, !app_nil_r.
    + destruct Ho as [_ Ho]. specialize (Ho eq_refl).
      destruct (scanDerive L x [0; 1; 2; 3] from) as [td o]. cbn [fst snd] in *.
      subst o td. unfold emit. rewrite !mbind_Ok. cbn [fst snd].
      split.
      * by rewrite IHt.
      * simpl. apply IHo.
Qed.

(** ** The shape of a run *)

Lemma sign_calls_app (t1 t2 : list Event) :
  sign_calls (t1 ++ t2) = sign_calls t1 ++ sign_calls t2.
Proof. apply List.filter_app. Qed.

Lemma sign_calls_none (tr : list Event) :
  Forall (fun e => is_sign_call e = false) tr -> sign_calls tr = [].
Proof.
  induction 1 as [|e rest He _ IH]; [done|].
  unfold sign_calls. simpl. by rewrite He.
Qed.

Lemma getPassphrase_no_sign_call (W : World) (c : Context) (need : bool) :
  Forall (fun e => is_sign_call e = false) (getPassphrase W c need).1.
Proof.
  apply Forall_forall. intros e He. apply getPassphrase_events in He.
  repeat case_match; by intuition subst.
Qed.

(** The required flags are checked in order: the result names the first one
    that is empty. *)
Lemma checkRequireds_outcome (c : Context) (requireds : list string) :
  match (checkRequireds c requireds).2 with
  | Ok _ => Forall (fun r => ctxString c r <> "") requireds
  | ExitError msg code =>
      code = 1 /\
      exists pre name post,
        requireds = pre ++ name :: post /\
        Forall (fun r => ctxString c r <> "") pre /\
        ctxString c name = "" /\
        msg = "ethsign: missing required parameter --" +:+ name
  | Panic => False
  end.
Proof.
  induction requireds as [|r rest IH]; simpl; [constructor|].
  case_bool_decide as Hr; simpl.
  - split; [done|]. by exists [], r, rest.
  - destruct (checkRequireds c rest).2 as [[]|msg code|]; [by constructor| |done].
    destruct IH as (-> & pre & name & post & -> & Hpre & Hname & ->).
    split; [done|]. exists (r :: pre), name, post. split_and!; [done| |done..].
    by constructor.
Qed.

Lemma transaction_flags_exit (L : Lib) (c : Context) msg code :
  (transaction_flags L c).2 = ExitError msg code -> code = 1 /\ is_exit_message msg.
Proof.
  unfold transaction_flags. rewrite mbind_snd.
  pose proof (checkRequireds_outcome c transaction_requireds) as Hreq.
  destruct (checkRequireds c transaction_requireds).2 as [[]|msg' code'|]; [| |done].
  - cbv zeta. destruct (_ || _).
    { intros [= <- <-]. split; [done|]. left. left. }
    destruct (_ && _).
    { intros [= <- <-]. split; [done|]. left. right. left. }
    repeat (match goal with |- context [must ?o] => destruct o; simpl end); done.
  - intros [= <- <-]. destruct Hreq as (-> & pre & name & post & Heq & _ & _ & ->).
    split; [done|]. right. exists name. split; [|done].
    apply elem_of_app. left. rewrite Heq. apply elem_of_app. right. left.
Qed.

Lemma message_flags_exit (L : Lib) (c : Context) msg code :
  (message_flags L c).2 = ExitError msg code -> code = 1 /\ is_exit_message msg.
Proof.
  unfold message_flags. rewrite mbind_snd.
  pose proof (checkRequireds_outcome c message_requireds) as Hreq.
  destruct (checkRequireds c message_requireds).2 as [[]|msg' code'|]; [| |done].
  - cbv zeta. by destruct (must _) as [t [d|m' c'|]] eqn:Hm; destruct (MustDecode L _).
  - intros [= <- <-]. destruct Hreq as (-> & pre & name & post & Heq & _ & _ & ->).
    split; [done|]. right. exists name. split; [|done].
    apply elem_of_app. right. rewrite Heq. apply elem_of_app. right. left.
Qed.

Lemma transaction_flags_Panic (L : Lib) (c : Context) :
  (transaction_flags L c).2 = Panic ->
  MustParseUint64 L (ctxString c "nonce") = None \/
  MustParseBig256 L (ctxString c "gas-price") = None \/
  MustParseBig256 L (ctxString c "gas-limit") = None \/
  MustParseBig256 L (ctxString c "value") = None \/
  MustParseBig256 L (ctxString c "chain-id") = None \/
  MustDecode L (transaction_dataString c) = None.
Proof.
  unfold transaction_flags, transaction_dataString. rewrite mbind_snd.
  pose proof (checkRequireds_outcome c transaction_requireds) as Hreq.
  destruct (checkRequireds c transaction_requireds).2 as [[]|msg' code'|]; [|done..].
  cbv zeta. destruct (_ || _); [done|]. destruct (_ && _); [done|].
  destruct (MustParseUint64 L _); [|by left].
  destruct (MustParseBig256 L (ctxString c "gas-price")); [|by right; left].
  destruct (MustParseBig256 L (ctxString c "gas-limit")); [|by do 2 right; left].
  destruct (MustParseBig256 L (ctxString c "value")); [|by do 3 right; left].
  destruct (MustParseBig256 L (ctxString c "chain-id")); [|by do 4 right; left].
  destruct (MustDecode L _); [done|by do 5 right].
Qed.

Lemma message_flags_Panic (L : Lib) (c : Context) :
  (message_flags L c).2 = Panic -> MustDecode L (message_dataString c) = None.
Proof.
  unfold message_flags, message_dataString. rewrite mbind_snd.
  pose proof (checkRequireds_outcome c message_requireds) as Hreq.
  destruct (checkRequireds c message_requireds).2 as [[]|msg' code'|]; [|done..].
  cbv zeta. destruct (strings_HasPrefix _ _); simpl; by destruct (MustDecode L _).
Qed.

(** When its flags are refused, an action has done nothing else. *)
Lemma transaction_Action_refused (L : Lib) (W : World) (c : Context) :
  (forall args, (transaction_flags L c).2 <> Ok args) ->
  (transaction_Action L W c).1 = [] /\
  (transaction_Action L W c).2 =
    match (transaction_flags L c).2 with
    | ExitError msg code => ExitError msg code
    | _ => Panic
    end.
Proof.
  intros Hno. unfold transaction_Action.
  pose proof (transaction_flags_trace L c) as Ht.
  destruct (transaction_flags L c) as [t [args|msg code|]]; simpl in *; subst; try done.
  by destruct (Hno args).
Qed.

Lemma message_Action_refused (L : Lib) (W : World) (c : Context) :
  (forall fd, (message_flags L c).2 <> Ok fd) ->
  (message_Action L W c).1 = [] /\
  (message_Action L W c).2 =
    match (message_flags L c).2 with
    | ExitError msg code => ExitError msg code
    | _ => Panic
    end.
Proof.
  intros Hno. unfold message_Action.
  pose proof (message_flags_trace L c) as Ht.
  destruct (message_flags L c) as [t [fd|msg code|]]; simpl in *; subst; try done.
  by destruct (Hno fd).
Qed.

Lemma getPassphrase_outcome (W : World) (c : Context) (need : bool) :
  match (getPassphrase W c need).2 with
  | Ok _ => True
  | ExitError msg code =>
      code = 1 /\
      (msg = "ethsign: failed to read passphrase file" \/
       msg = "ethsign: failed to read passphrase")
  | Panic => False
  end.
Proof.
  destruct need; [|done]. rewrite getPassphrase_true.
  case_bool_decide; simpl.
  - destruct (ReadPassword W); [done|]. split; [done|by right].
  - destruct (ReadFile W _); [done|]. split; [done|by left].
Qed.

(** When its flags are accepted, the [transaction] action runs through a
    part [q] that neither prints nor signs (the hubs, the scan, the
    passphrase), and either exits there or makes its one signing call. *)
Lemma transaction_Action_accepted (L : Lib) (W : World) (c : Context) (args : TxArgs) :
  (transaction_flags L c).2 = Ok args ->
  let sc := Scan L (ManagerWallets L (hub_backends W (ctxString c "key-store")))
              (a_from args) in
  exists q,
    stdout q = [] /\ sign_calls q = [] /\
    ((exists msg,
        transaction_Action L W c = (q, ExitError msg 1) /\ msg ∈ exit_messages) \/
     (exists f p,
        sc.2 = Ok (Some f) /\
        (getPassphrase W c (needPassphrase f)).2 = Ok p /\
        let call := EvSignTx (wURL (wallet f)) (acct f) p (transaction_tx args)
                      (a_chainID args) in
        match wSignTxWithPassphrase (wallet f) (acct f) p (transaction_tx args)
                (a_chainID args) with
        | None =>
            transaction_Action L W c =
              (q ++ [call], ExitError "ethsign: failed to sign tx" 1)
        | Some signed =>
            transaction_Action L W c =
              (q ++ [call; EvStdout (hexutil_Encode (EncodeToBytes L signed).1 +:+ nl)],
               Ok tt)
        end)).
Proof.
  intros Hfl sc. rewrite (transaction_Action_eq L W c args Hfl). cbv zeta. fold sc.
  pose proof (Scan_outcome L (ManagerWallets L (hub_backends W (ctxString c "key-store")))
                (a_from args)) as Hout. fold sc in Hout.
  pose proof (stdout_scan L W (ManagerWallets L (hub_backends W (ctxString c "key-store")))
                (a_from args)) as Hquiet. fold sc in Hquiet.
  pose proof (sign_calls_none _
                (scan_no_sign_call L W
                   (ManagerWallets L (hub_backends W (ctxString c "key-store")))
                   (a_from args))) as Hnosign. fold sc in Hnosign.
  destruct sc as [ts [[f|]|msg code|]]; cbn [fst snd] in *.
  - rewrite transaction_sign_eq. cbv zeta.
    pose proof (getPassphrase_outcome W c (needPassphrase f)) as Hgp.
    pose proof (stdout_getPassphrase W c (needPassphrase f)) as Hgpq.
    pose proof (sign_calls_none _ (getPassphrase_no_sign_call W c (needPassphrase f)))
      as Hgps.
    destruct (getPassphrase W c (needPassphrase f)) as [tp [p|msg code|]] eqn:Hgpe;
      cbn [fst snd] in *; [| |done].
    + exists (hub_errors W ++ ts ++ tp). rewrite app_assoc.
      split_and!.
      * by rewrite stdout_app, Hquiet, Hgpq.
      * by rewrite sign_calls_app, Hnosign, Hgps.
      * right. exists f, p. split_and!; [done|by rewrite Hgpe|].
        destruct (wSignTxWithPassphrase _ _ _ _ _); cbn [fst snd];
          by rewrite <- !app_assoc.
    + exists (hub_errors W ++ ts ++ tp). rewrite app_assoc.
      split_and!.
      * by rewrite stdout_app, Hquiet, Hgpq.
      * by rewrite sign_calls_app, Hnosign, Hgps.
      * left. destruct Hgp as (-> & Hmsg). exists msg. split; [done|].
        unfold exit_messages. destruct Hmsg as [-> | ->].
        -- do 5 right. left.
        -- do 6 right. left.
  - exists (hub_errors W ++ ts). split_and!; [done..|].
    left. eexists. split; [done|]. do 4 right. left.
  - exists (hub_errors W ++ ts). split_and!; [done..|].
    left. destruct Hout as (-> & -> & _). eexists. split; [done|]. do 2 right. left.
  - done.
Qed.

(** The same for the [message] action, which can also panic after its
    signing call, on a signature without a byte at index 64. *)
Lemma message_Action_accepted (L : Lib) (W : World) (c : Context)
    (from : Address) (data : list byte) :
  (message_flags L c).2 = Ok (from, data) ->
  let sc := Scan L (ManagerWallets L (hub_backends W (ctxString c "key-store"))) from in
  exists q,
    stdout q = [] /\ sign_calls q = [] /\
    ((exists msg,
        message_Action L W c = (q, ExitError msg 1) /\ msg ∈ exit_messages) \/
     (exists f p,
        sc.2 = Ok (Some f) /\
        (getPassphrase W c (needPassphrase f)).2 = Ok p /\
        let call := EvSignHash (wURL (wallet f)) (acct f) p (signHash L data) in
        match wSignHashWithPassphrase (wallet f) (acct f) p (signHash L data) with
        | None =>
            message_Action L W c = (q ++ [call], ExitError "ethsign: failed to sign tx" 1)
        | Some signature =>
            match signature !! 64%nat with
            | None => message_Action L W c = (q ++ [call], Panic)
            | Some v =>
                message_Action L W c =
                  (q ++ [call;
                         EvStdout (hexutil_Encode (<[64%nat := byte_add v 27]> signature)
                                   +:+ nl)],
                   Ok tt)
            end
        end)).
Proof.
  intros Hfl sc. rewrite (message_Action_eq L W c from data Hfl). cbv zeta. fold sc.
  pose proof (Scan_outcome L (ManagerWallets L (hub_backends W (ctxString c "key-store")))
                from) as Hout. fold sc in Hout.
  pose proof (stdout_scan L W (ManagerWallets L (hub_backends W (ctxString c "key-store")))
                from) as Hquiet. fold sc in Hquiet.
  pose proof (sign_calls_none _
                (scan_no_sign_call L W
                   (ManagerWallets L (hub_backends W (ctxString c "key-store")))
                   from)) as Hnosign. fold sc in Hnosign.
  destruct sc as [ts [[f|]|msg code|]]; cbn [fst snd] in *.
  - rewrite message_sign_eq. cbv zeta.
    pose proof (getPassphrase_outcome W c (needPassphrase f)) as Hgp.
    pose proof (stdout_getPassphrase W c (needPassphrase f)) as Hgpq.
    pose proof (sign_calls_none _ (getPassphrase_no_sign_call W c (needPassphrase f)))
      as Hgps.
    destruct (getPassphrase W c (needPassphrase f)) as [tp [p|msg code|]] eqn:Hgpe;
      cbn [fst snd] in *; [| |done].
    + exists (hub_errors W ++ ts ++ tp). rewrite app_assoc.
      split_and!.
      * by rewrite stdout_app, Hquiet, Hgpq.
      * by rewrite sign_calls_app, Hnosign, Hgps.
      * right. exists f, p. split_and!; [done|by rewrite Hgpe|].
        destruct (wSignHashWithPassphrase _ _ _ _) as [sig|];
          [destruct (sig !! 64%nat)|]; cbn [fst snd]; by rewrite <- !app_assoc.
    + exists (hub_errors W ++ ts ++ tp). rewrite app_assoc.
      split_and!.
      * by rewrite stdout_app, Hquiet, Hgpq.
      * by rewrite sign_calls_app, Hnosign, Hgps.
      * left. destruct Hgp as (-> & Hmsg). exists msg. split; [done|].
        unfold exit_messages. destruct Hmsg as [-> | ->].
        -- do 5 right. left.
        -- do 6 right. left.
  - exists (hub_errors W ++ ts). split_and!; [done..|].
    left. eexists. split; [done|]. do 4 right. left.
  - exists (hub_errors W ++ ts). split_and!; [done..|].
    left. destruct Hout as (-> & -> & _). eexists. split; [done|]. do 2 right. left.
  - done.
Qed.

(** ** Signing calls and output *)

Lemma transaction_flags_cases (L : Lib) (c : Context) :
  (exists args, (transaction_flags L c).2 = Ok args) \/
  (forall args, (transaction_flags L c).2 <> Ok args).
Proof. destruct (transaction_flags L c).2; eauto. Qed.

Lemma message_flags_cases (L : Lib) (c : Context) :
  (exists from data, (message_flags L c).2 = Ok (from, data)) \/
  (forall fd, (message_flags L c).2 <> Ok fd).
Proof. destruct (message_flags L c).2 as [[from data]|msg code|]; eauto. Qed.

(** X4. A signing call of the [transaction] or [message] action is made on an
    account whose address is the address of [--from], by a wallet of the
    manager that lists this account or derives it at one of the four fixed
    paths; for a transaction, the chain id of the call is the value of
    [--chain-id]. No run makes more than one signing call. *)
Theorem signing_call_account (L : Lib) (W : World) (c : Context) :
  let wallets := ManagerWallets L (hub_backends W (ctxString c "key-store")) in
  let from := HexToAddress L (ctxString c "from") in
  (forall u a p tx chainID,
     EvSignTx u a p tx chainID ∈ (transaction_Action L W c).1 ->
     Addr a = from /\
     MustParseBig256 L (ctxString c "chain-id") = Some chainID /\
     exists w, w ∈ wallets /\ u = wURL w /\
       (a ∈ wAccounts w \/
        exists j, j ∈ [0; 1; 2; 3] /\ wDerive w (hd_path L j) true = Some a)) /\
  (forall u a p h,
     EvSignHash u a p h ∈ (message_Action L W c).1 ->
     Addr a = from /\
     exists w, w ∈ wallets /\ u = wURL w /\
       (a ∈ wAccounts w \/
        exists j, j ∈ [0; 1; 2; 3] /\ wDerive w (hd_path L j) true = Some a)) /\
  (List.length (sign_calls (transaction_Action L W c).1) <= 1)%nat /\
  (List.length (sign_calls (message_Action L W c).1) <= 1)%nat.
Proof.
  intros wallets from. split_and!.
  - intros u a p tx chainID Hin.
    apply transaction_Action_sign_event in Hin as (args & f & Hfl & Hsc & Hin).
    apply transaction_sign_events in Hin as (-> & -> & _ & -> & _).
    apply transaction_flags_Ok in Hfl as (_ & _ & Hfrom & _ & _ & _ & _ & Hchain & _).
    pose proof (Scan_outcome L wallets (a_from args)) as Hout.
    fold wallets in Hsc. rewrite Hsc in Hout. destruct Hout as (Hw & Haddr & Hwhere).
    split_and!; [by rewrite Haddr|done|].
    exists (wallet f). split_and!; [done..|].
    destruct Hwhere as [(_ & ? & _)|(_ & ? & _)]; [by left|by right].
  - intros u a p h Hin.
    apply message_Action_sign_event in Hin as (from' & data & f & Hfl & Hsc & Hin).
    apply message_sign_events in Hin as (-> & -> & _ & _).
    apply message_flags_Ok in Hfl as [-> _].
    pose proof (Scan_outcome L wallets from) as Hout.
    fold wallets from in Hsc. rewrite Hsc in Hout. destruct Hout as (Hw & Haddr & Hwhere).
    split; [done|].
    exists (wallet f). split_and!; [done..|].
    destruct Hwhere as [(_ & ? & _)|(_ & ? & _)]; [by left|by right].
  - destruct (transaction_flags_cases L c) as [[args Hfl]|Hno].
    + destruct (transaction_Action_accepted L W c args Hfl)
        as (q & _ & Hq & [(msg & -> & _)|(f & p & _ & _ & Hrun)]).
      * cbn [fst]. rewrite Hq. simpl. lia.
      * cbv zeta in Hrun. destruct (wSignTxWithPassphrase _ _ _ _ _);
          rewrite Hrun; cbn [fst]; rewrite sign_calls_app, Hq; simpl; lia.
    + destruct (transaction_Action_refused L W c Hno) as [-> _]. simpl. lia.
  - destruct (message_flags_cases L c) as [(from' & data & Hfl)|Hno].
    + destruct (message_Action_accepted L W c from' data Hfl)
        as (q & _ & Hq & [(msg & -> & _)|(f & p & _ & _ & Hrun)]).
      * cbn [fst]. rewrite Hq. simpl. lia.
      * cbv zeta in Hrun.
        destruct (wSignHashWithPassphrase _ _ _ _) as [sig|];
          [destruct (sig !! 64%nat)|];
          rewrite Hrun; cbn [fst]; rewrite sign_calls_app, Hq; simpl; lia.
    + destruct (message_Action_refused L W c Hno) as [-> _]. simpl. lia.
Qed.

Lemma signing_call_account_witness :
  Addr {| Addr := Sample.addrA; AccURL := Sample.keystoreURL |} =
    HexToAddress Sample.lib (ctxString (Sample.msgFlags "0xaa01" "abcd") "from") /\
  exists w,
    w ∈ ManagerWallets Sample.lib (hub_backends (Sample.world [] []) "/keys") /\
    Sample.keystoreURL = wURL w /\
    ({| Addr := Sample.addrA; AccURL := Sample.keystoreURL |} ∈ wAccounts w \/
     exists j, j ∈ [0; 1; 2; 3] /\
       wDerive w (hd_path Sample.lib j) true =
         Some {| Addr := Sample.addrA; AccURL := Sample.keystoreURL |}).
Proof.
  apply (proj1 (proj2 (signing_call_account Sample.lib (Sample.world [] [])
                         (Sample.msgFlags "0xaa01" "abcd")))
           Sample.keystoreURL _ "secret" (signHash Sample.lib [xab; xcd])).
  vm_compute. do 2 right. left.
Defined.

(** X5. Nothing is written to standard output unless the action succeeds:
    whenever the [transaction] or the [message] action ends with an exit
    error or a panic, its trace has no write to standard output. *)
Theorem output_only_on_success (L : Lib) (W : World) (c : Context) :
  ((transaction_Action L W c).2 <> Ok tt -> stdout (transaction_Action L W c).1 = []) /\
  ((message_Action L W c).2 <> Ok tt -> stdout (message_Action L W c).1 = []).
Proof.
  split; intros Hfail.
  - destruct (transaction_flags_cases L c) as [[args Hfl]|Hno].
    + destruct (transaction_Action_accepted L W c args Hfl)
        as (q & Hq & _ & [(msg & -> & _)|(f & p & _ & _ & Hrun)]); [done|].
      cbv zeta in Hrun. destruct (wSignTxWithPassphrase _ _ _ _ _);
        rewrite Hrun in *; cbn [fst snd] in *; [done|].
      by rewrite stdout_app, Hq.
    + by destruct (transaction_Action_refused L W c Hno) as [-> _].
  - destruct (message_flags_cases L c) as [(from & data & Hfl)|Hno].
    + destruct (message_Action_accepted L W c from data Hfl)
        as (q & Hq & _ & [(msg & -> & _)|(f & p & _ & _ & Hrun)]); [done|].
      cbv zeta in Hrun.
      destruct (wSignHashWithPassphrase _ _ _ _) as [sig|];
        [destruct (sig !! 64%nat)|];
        rewrite Hrun in *; cbn [fst snd] in *; [done|..];
        by rewrite stdout_app, Hq.
    + by destruct (message_Action_refused L W c Hno) as [-> _].
Qed.

Lemma output_only_on_success_witness :
  stdout (message_Action Sample.lib Sample.bareWorld (Sample.msgFlags "0xcc03" "abcd")).1 = [].
Proof.
  apply (proj2 (output_only_on_success Sample.lib Sample.bareWorld
                  (Sample.msgFlags "0xcc03" "abcd"))).
  discriminate.
Defined.

(** X7. The [transaction] action panics only on a flag that cannot be parsed
    (the nonce, the gas price, the gas limit, the value, the chain id or the
    data), and then before anything else has happened: the trace is empty,
    no hub was opened and no wallet was asked. *)
Theorem transaction_panic (L : Lib) (W : World) (c : Context) :
  (transaction_Action L W c).2 = Panic ->
  (transaction_Action L W c).1 = [] /\
  (MustParseUint64 L (ctxString c "nonce") = None \/
   MustParseBig256 L (ctxString c "gas-price") = None \/
   MustParseBig256 L (ctxString c "gas-limit") = None \/
   MustParseBig256 L (ctxString c "value") = None \/
   MustParseBig256 L (ctxString c "chain-id") = None \/
   MustDecode L (transaction_dataString c) = None).
Proof.
  intros Hp. destruct (transaction_flags_cases L c) as [[args Hfl]|Hno].
  - exfalso.
    destruct (transaction_Action_accepted L W c args Hfl)
      as (q & _ & _ & [(msg & Hrun & _)|(f & p & _ & _ & Hrun)]).
    + by rewrite Hrun in Hp.
    + cbv zeta in Hrun. by destruct (wSignTxWithPassphrase _ _ _ _ _); rewrite Hrun in Hp.
  - destruct (transaction_Action_refused L W c Hno) as [Ht Ho].
    split; [done|]. apply transaction_flags_Panic.
    rewrite Ho in Hp.
    destruct (transaction_flags L c).2 as [args| |]; [by destruct (Hno args)|done..].
Qed.

Lemma transaction_panic_witness :
  let c := Sample.flags [("from", "0xaa01"); ("to", "0xdd04"); ("nonce", "one");
                         ("value", "10"); ("gas-price", "2"); ("gas-limit", "21000");
                         ("chain-id", "1")] false in
  (transaction_Action Sample.lib (Sample.world [] []) c).1 = [] /\
  (MustParseUint64 Sample.lib (ctxString c "nonce") = None \/
   MustParseBig256 Sample.lib (ctxString c "gas-price") = None \/
   MustParseBig256 Sample.lib (ctxString c "gas-limit") = None \/
   MustParseBig256 Sample.lib (ctxString c "value") = None \/
   MustParseBig256 Sample.lib (ctxString c "chain-id") = None \/
   MustDecode Sample.lib (transaction_dataString c) = None).
Proof.
  intros c. apply (transaction_panic Sample.lib (Sample.world [] []) c).
  reflexivity.
Defined.

(** X8. The [message] action panics in two cases only. Either the data
    cannot be decoded, and then nothing else has happened; or a wallet
    returned a signature of fewer than 65 bytes, and then the signing call
    is the last event of the trace and nothing was printed. *)
Theorem message_panic (L : Lib) (W : World) (c : Context) :
  (message_Action L W c).2 = Panic ->
  ((message_Action L W c).1 = [] /\ MustDecode L (message_dataString c) = None) \/
  (exists w a p h signature,
     w ∈ ManagerWallets L (hub_backends W (ctxString c "key-store")) /\
     last (message_Action L W c).1 = Some (EvSignHash (wURL w) a p h) /\
     wSignHashWithPassphrase w a p h = Some signature /\
     (List.length signature < 65)%nat /\
     stdout (message_Action L W c).1 = []).
Proof.
  intros Hp. destruct (message_flags_cases L c) as [(from & data & Hfl)|Hno].
  - right.
    pose proof (Scan_outcome L (ManagerWallets L (hub_backends W (ctxString c "key-store")))
                  from) as Hout.
    destruct (message_Action_accepted L W c from data Hfl)
      as (q & Hq & _ & [(msg & Hrun & _)|(f & p & Hsc & _ & Hrun)]).
    { by rewrite Hrun in Hp. }
    rewrite Hsc in Hout. destruct Hout as (Hw & _).
    cbv zeta in Hrun.
    destruct (wSignHashWithPassphrase _ _ _ _) as [sig|] eqn:Hsig;
      [destruct (sig !! 64%nat) eqn:Hv|]; rewrite Hrun in Hp |- *; try done.
    exists (wallet f), (acct f), p, (signHash L data), sig. cbn [fst].
    split_and!; [done| |done| |].
    + by rewrite last_snoc.
    + apply lookup_ge_None in Hv. lia.
    + by rewrite stdout_app, Hq.
  - left. destruct (message_Action_refused L W c Hno) as [Ht Ho].
    split; [done|]. apply message_flags_Panic.
    rewrite Ho in Hp.
    destruct (message_flags L c).2 as [fd| |]; [by destruct (Hno fd)|done..].
Qed.

Lemma message_panic_witness :
  let run := message_Action Sample.lib Sample.bareWorld (Sample.msgFlags "0xcc03" "abcd") in
  (run.1 = [] /\
   MustDecode Sample.lib (message_dataString (Sample.msgFlags "0xcc03" "abcd")) = None) \/
  (exists w a p h signature,
     w ∈ ManagerWallets Sample.lib (hub_backends Sample.bareWorld "/keys") /\
     last run.1 = Some (EvSignHash (wURL w) a p h) /\
     wSignHashWithPassphrase w a p h = Some signature /\
     (List.length signature < 65)%nat /\
     stdout run.1 = []).
Proof.
  intros run.
  apply (message_panic Sample.lib Sample.bareWorld (Sample.msgFlags "0xcc03" "abcd")).
  reflexivity.
Defined.

(** ** The listing *)

Lemma Printf_keystore_line (a : string) :
  Sprintf' ("%s keystore" +:+ nl) [ArgString a] = a +:+ " keystore" +:+ nl.
Proof. reflexivity. Qed.

Lemma Printf_ledger_line (a b : string) :
  Sprintf' ("%s ledger-%s" +:+ nl) [ArgString a; ArgString b] =
  a +:+ " ledger-" +:+ b +:+ nl.
Proof. reflexivity. Qed.

Lemma listAccounts_run (L : Lib) (accts : list Account) :
  stdout (listAccounts L accts).1 =
    (fun y => AddressHex L (Addr y) +:+ " keystore" +:+ nl) <$> accts /\
  (listAccounts L accts).2 = Ok tt.
Proof.
  induction accts as [|y rest [IHt IHo]]; [done|].
  cbn [listAccounts]. unfold Printf, emit. rewrite Printf_keystore_line.
  unfold mbind, M_bind. cbn [fst snd]. split; [|done].
  rewrite (stdout_app [_]), IHt. done.
Qed.

Lemma listDerive_run (L : Lib) (x : Wallet) (js : list N) :
  stdout (listDerive L x js).1 = ledger_lines L x js /\
  (listDerive L x js).2 =
    if existsb (list_stops x) (hd_path L <$> js)
    then ExitError
           "ethsign: couldn't use Ledger: needs to be in Ethereum app with browser support off" 1
    else Ok tt.
Proof.
  induction js as [|j rest [IHt IHo]]; [done|].
  cbn [listDerive ledger_lines fmap list_fmap existsb]. fold (hd_path L j).
  unfold list_stops at 1.
  destruct (wDerive x (hd_path L j) false) as [z|]; [|done].
  unfold Printf, emit. rewrite !mbind_Ok, Printf_ledger_line. cbn [fst snd orb].
  split; [|done].
  rewrite (stdout_app [_] (_ ++ _)), (stdout_app [_]), IHt. done.
Qed.

(** What the listing prints for a list of wallets, and how it ends. *)
Lemma listWallets_run (L : Lib) (wallets : list Wallet) :
  stdout (listWallets L wallets).1 =
    flat_map (wallet_lines L) (take_through (list_fails L) wallets) /\
  (listWallets L wallets).2 =
    if existsb (list_fails L) wallets
    then ExitError
           "ethsign: couldn't use Ledger: needs to be in Ethereum app with browser support off" 1
    else Ok tt.
Proof.
  induction wallets as [|x rest [IHt IHo]]; [done|].
  cbn [listWallets take_through flat_map existsb].
  unfold list_fails at 1 3, wallet_lines at 1.
  case_bool_decide.
  - destruct (listAccounts_run L (wAccounts x)) as [Ht Ho].
    destruct (listAccounts L (wAccounts x)) as [ta o]. cbn [fst snd] in *. subst o.
    rewrite mbind_Ok. cbn [fst snd negb andb orb].
    split; [|done]. by rewrite stdout_app, Ht, IHt.
  - case_bool_decide; cbn [negb andb orb].
    + destruct (listDerive_run L x [0; 1; 2; 3]) as [Ht Ho]. fold (hd_paths L) in Ho.
      unfold emit. rewrite mbind_Ok.
      destruct (listDerive L x [0; 1; 2; 3]) as [td o]. cbn [fst snd] in *. subst o.
      destruct (existsb (list_stops x) (hd_paths L)).
      * rewrite mbind_ExitError. cbn [fst snd].
        split; [|done]. rewrite app_nil_r.
        by rewrite (stdout_app [_]), Ht.
      * rewrite mbind_Ok. cbn [fst snd].
        split; [|done]. rewrite stdout_app, (stdout_app [_]), Ht, IHt. done.
    + unfold mbind, M_bind, mret, M_ret. cbn [fst snd app]. done.
Qed.

Lemma listDerive_listing (L : Lib) (x : Wallet) (js : list N) :
  Forall (fun e => is_listing_event e = true) (listDerive L x js).1.
Proof.
  induction js as [|j rest IH]; [constructor|].
  cbn [listDerive].
  apply Forall_mbind; [by apply Forall_singleton|intros _ _].
  destruct (wDerive x _ false) as [z|]; [|constructor].
  apply Forall_mbind; [by apply Forall_singleton|done].
Qed.

Lemma listWallets_listing (L : Lib) (wallets : list Wallet) :
  Forall (fun e => is_listing_event e = true) (listWallets L wallets).1.
Proof.
  induction wallets as [|x rest IH]; [constructor|].
  cbn [listWallets]. apply Forall_mbind; [|done].
  case_bool_decide.
  - induction (wAccounts x) as [|y accts IHa]; [constructor|].
    cbn [listAccounts]. apply Forall_mbind; [by apply Forall_singleton|done].
  - case_bool_decide; [|constructor].
    apply Forall_mbind; [by apply Forall_singleton|intros _ _].
    apply listDerive_listing.
Qed.

(** X11. The listing only writes to standard output and standard error,
    opens wallets with the empty passphrase and derives accounts without
    pinning them: it never asks a wallet to sign and never reads a
    passphrase, from a file or from the terminal. *)
Theorem listing_is_read_only (L : Lib) (W : World) (c : Context) :
  Forall (fun e => is_listing_event e = true /\
                   is_sign_call e = false /\
                   is_passphrase_read e = false)
    (list_accounts_Action L W c).1.
Proof.
  assert (Forall (fun e => is_listing_event e = true) (list_accounts_Action L W c).1)
    as Hall.
  { unfold list_accounts_Action. apply Forall_mbind.
    - apply Forall_forall. intros e He. by apply getWallets_events in He as [s ->].
    - intros ws _. apply listWallets_listing. }
  eapply Forall_impl; [exact Hall|].
  intros e He. split; [done|]. by destruct e.
Qed.

(** X12. What the listing prints and how it ends. The wallets of the manager
    are listed in order. A wallet of the key store gives the line
    ["<address> keystore"] for each of its accounts; a Ledger wallet gives the
    line ["<address> ledger-<path>"] for each of the four paths in order, up
    to the first derivation that fails; a wallet of any other scheme gives
    no line. If a derivation fails, the listing stops at that wallet, keeping
    the lines already printed, with the exit error ["ethsign: couldn't use
    Ledger: needs to be in Ethereum app with browser support off"]; if none
    fails it succeeds. *)
Theorem listing_output (L : Lib) (W : World) (c : Context) :
  let wallets := ManagerWallets L (hub_backends W (ctxString c "key-store")) in
  stdout (list_accounts_Action L W c).1 =
    flat_map (wallet_lines L) (take_through (list_fails L) wallets) /\
  (list_accounts_Action L W c).2 =
    if existsb (list_fails L) wallets
    then ExitError
           "ethsign: couldn't use Ledger: needs to be in Ethereum app with browser support off" 1
    else Ok tt.
Proof.
  intros wallets. unfold list_accounts_Action.
  rewrite getWallets_eq, mbind_Ok. fold wallets. cbn [fst snd].
  destruct (listWallets_run L wallets) as [Ht Ho].
  split; [|done].
  rewrite stdout_app, Ht.
  rewrite (stdout_silent (hub_errors W)); [done|].
  intros e He s. by apply (hub_errors_events L) in He as [s' ->].
Qed.

Lemma listing_run_outcome (L : Lib) (W : World) (c : Context) :
  (list_accounts_Action L W c).2 = Ok tt \/
  (list_accounts_Action L W c).2 =
    ExitError
      "ethsign: couldn't use Ledger: needs to be in Ethereum app with browser support off" 1.
Proof.
  unfold list_accounts_Action. rewrite getWallets_eq, mbind_Ok. cbn [snd].
  rewrite (proj2 (listWallets_run L _)). destruct (existsb _ _); auto.
Qed.

(** ** Exit errors *)

Lemma exit_message_prefix (msg : string) :
  is_exit_message msg -> String.prefix "ethsign: " msg = true.
Proof.
  intros [Hin|(name & _ & ->)]; [|reflexivity].
  unfold exit_messages in Hin.
  repeat (apply elem_of_cons in Hin as [->|Hin]; [reflexivity|]).
  by apply elem_of_nil in Hin.
Qed.

Lemma exit_messages_are_exit_messages (msg : string) :
  msg ∈ exit_messages -> is_exit_message msg.
Proof. by left. Qed.

(** X6. Every exit error of the three actions has exit code 1, and its
    message is one of the fixed messages of the program or the message for
    a missing required flag; all of them start with ["ethsign: "]. *)
Theorem exit_errors (L : Lib) (W : World) (c : Context) (msg : string) (code : N) :
  (transaction_Action L W c).2 = ExitError msg code \/
  (message_Action L W c).2 = ExitError msg code \/
  (list_accounts_Action L W c).2 = ExitError msg code ->
  code = 1 /\ is_exit_message msg /\ String.prefix "ethsign: " msg = true.
Proof.
  intros Hexit.
  assert (code = 1 /\ is_exit_message msg) as [-> Hmsg].
  { destruct Hexit as [Hexit|[Hexit|Hexit]].
    - destruct (transaction_flags_cases L c) as [[args Hfl]|Hno].
      + destruct (transaction_Action_accepted L W c args Hfl)
          as (q & _ & _ & [(msg' & Hrun & Hin)|(f & p & _ & _ & Hrun)]).
        * rewrite Hrun in Hexit. injection Hexit as <- <-. by split; [|left].
        * cbv zeta in Hrun. destruct (wSignTxWithPassphrase _ _ _ _ _);
            rewrite Hrun in Hexit; [done|].
          injection Hexit as <- <-. split; [done|]. left. do 7 right. left.
      + destruct (transaction_Action_refused L W c Hno) as [_ Ho].
        rewrite Ho in Hexit.
        destruct (transaction_flags L c).2 as [|msg' code'|] eqn:Hfl; [done| |done].
        injection Hexit as -> ->. by apply (transaction_flags_exit L c).
    - destruct (message_flags_cases L c) as [(from & data & Hfl)|Hno].
      + destruct (message_Action_accepted L W c from data Hfl)
          as (q & _ & _ & [(msg' & Hrun & Hin)|(f & p & _ & _ & Hrun)]).
        * rewrite Hrun in Hexit. injection Hexit as <- <-. by split; [|left].
        * cbv zeta in Hrun.
          destruct (wSignHashWithPassphrase _ _ _ _) as [sig|];
            [destruct (sig !! 64%nat)|]; rewrite Hrun in Hexit; [done..|].
          injection Hexit as <- <-. split; [done|]. left. do 7 right. left.
      + destruct (message_Action_refused L W c Hno) as [_ Ho].
        rewrite Ho in Hexit.
        destruct (message_flags L c).2 as [|msg' code'|] eqn:Hfl; [done| |done].
        injection Hexit as -> ->. by apply (message_flags_exit L c).
    - destruct (listing_run_outcome L W c) as [Ho|Ho]; rewrite Ho in Hexit; [done|].
      injection Hexit as <- <-. split; [done|]. left. do 3 right. left. }
  split_and!; [done..|]. by apply exit_message_prefix.
Qed.

Lemma exit_errors_witness :
  1 = 1 /\
  is_exit_message "ethsign: need --data when doing --create" /\
  String.prefix "ethsign: " "ethsign: need --data when doing --create" = true.
Proof.
  apply (exit_errors Sample.lib (Sample.world [] []) Sample.createFlags).
  left. reflexivity.
Defined.

Lemma checkRequireds_first (c : Context) (pre : list string) (name : string)
    (post : list string) :
  Forall (fun r => ctxString c r <> "") pre ->
  ctxString c name = "" ->
  checkRequireds c (pre ++ name :: post) =
    ([], ExitError ("ethsign: missing required parameter --" +:+ name) 1).
Proof.
  intros Hpre Hname. induction Hpre as [|r rest Hr _ IH]; simpl.
  - by rewrite bool_decide_eq_true_2.
  - by rewrite bool_decide_eq_false_2.
Qed.

(** X13. The required flags are checked in the order in which they are
    listed, and the error names the first one that is empty: for the
    [transaction] action the order is [--nonce], [--value], [--gas-price],
    [--gas-limit], [--chain-id], [--from]; for the [message] action it is
    [--from], [--data]. *)
Theorem first_missing_flag (L : Lib) (W : World) (c : Context)
    (pre : list string) (name : string) (post : list string) :
  Forall (fun r => ctxString c r <> "") pre ->
  ctxString c name = "" ->
  (["nonce"; "value"; "gas-price"; "gas-limit"; "chain-id"; "from"] = pre ++ name :: post ->
   transaction_Action L W c =
     ([], ExitError ("ethsign: missing required parameter --" +:+ name) 1)) /\
  (["from"; "data"] = pre ++ name :: post ->
   message_Action L W c =
     ([], ExitError ("ethsign: missing required parameter --" +:+ name) 1)).
Proof.
  intros Hpre Hname. split; intros Heq.
  - unfold transaction_Action, transaction_flags.
    change transaction_requireds
      with ["nonce"; "value"; "gas-price"; "gas-limit"; "chain-id"; "from"].
    by rewrite Heq, (checkRequireds_first c pre name post Hpre Hname).
  - unfold message_Action, message_flags.
    change message_requireds with ["from"; "data"].
    by rewrite Heq, (checkRequireds_first c pre name post Hpre Hname).
Qed.

Lemma first_missing_flag_witness :
  transaction_Action Sample.lib (Sample.world [] [])
    (Sample.flags [("nonce", "1"); ("gas-price", "2")] false) =
  ([], ExitError ("ethsign: missing required parameter --" +:+ "value") 1).
Proof.
  apply (proj1 (first_missing_flag Sample.lib (Sample.world [] [])
                  (Sample.flags [("nonce", "1"); ("gas-price", "2")] false)
                  ["nonce"] "value" ["gas-price"; "gas-limit"; "chain-id"; "from"]
                  ltac:(repeat constructor; discriminate) eq_refl)).
  reflexivity.
Defined.

(** ** The data of a transaction *)

Lemma ctxBool_with_data (c : Context) (s name : string) :
  ctxBool (with_data c s) name = ctxBool c name.
Proof. reflexivity. Qed.

(** X9. In a [transaction] without [--create], an empty [--data] stands for
    ["0x"]: the action with [--data ""] and the action with [--data "0x"] are the
    same computation. *)
Theorem transaction_empty_data (L : Lib) (W : World) (c : Context) :
  ctxBool c "create" = false ->
  transaction_Action L W (with_data c "") = transaction_Action L W (with_data c "0x").
Proof.
  intros Hcreate.
  assert (transaction_flags L (with_data c "") = transaction_flags L (with_data c "0x"))
    as Hflags.
  { unfold transaction_flags, transaction_requireds. cbn [checkRequireds].
    rewrite !ctxBool_with_data, Hcreate, !ctxString_with_data.
    rewrite !ctxString_with_data_ne by done.
    cbn [andb].
    rewrite (bool_decide_eq_true_2 ("" = "")) by done.
    rewrite (bool_decide_eq_false_2 ("0x" = "")) by done.
    done. }
  unfold transaction_Action. rewrite Hflags.
  apply mbind_ext. intros args _.
  rewrite !ctxString_with_data_ne by done.
  apply mbind_ext. intros wallets _.
  apply mbind_ext. intros [f|] _; [|done].
  unfold transaction_sign.
  rewrite (getPassphrase_ext W (with_data c "") (with_data c "0x")); [done|].
  by rewrite !ctxString_with_data_ne.
Qed.

Lemma transaction_empty_data_witness :
  transaction_Action Sample.lib (Sample.world [] []) (with_data (Sample.txFlags "0xaa01") "") =
  transaction_Action Sample.lib (Sample.world [] []) (with_data (Sample.txFlags "0xaa01") "0x").
Proof.
  apply (transaction_empty_data Sample.lib (Sample.world [] []) (Sample.txFlags "0xaa01")).
  reflexivity.
Defined.

(** ** The passphrase file *)

Lemma substring_0_length (s : string) : String.substring 0 (String.length s) s = s.
Proof. induction s as [|a s IH]; [done|]. simpl. by rewrite IH. Qed.

Lemma substring_0_append (s t : string) :
  String.substring 0 (String.length s) (s +:+ t) = s.
Proof.
  induction s as [|a s IH]; [by destruct t|].
  rewrite append_String. simpl. by rewrite IH.
Qed.

Lemma substring_length_append (s t : string) (k : nat) :
  String.substring (String.length s) k (s +:+ t) = String.substring 0 k t.
Proof.
  induction s as [|a s IH]; [done|].
  rewrite append_String. simpl. apply IH.
Qed.

Lemma substring_split (s : string) (m : nat) :
  (m <= String.length s)%nat ->
  s = String.substring 0 m s +:+ String.substring m (String.length s - m) s.
Proof.
  revert m. induction s as [|a s IH]; intros m Hm.
  - simpl in Hm. by replace m with 0%nat by lia.
  - destruct m as [|m].
    + simpl. by rewrite substring_0_length.
    + simpl in *. rewrite append_String. f_equal. apply IH. lia.
Qed.

Lemma TrimSuffix_newline (s : string) : strings_TrimSuffix (s +:+ nl) nl = s.
Proof.
  unfold strings_TrimSuffix. rewrite length_append. simpl String.length.
  replace (String.length s + 1 - 1)%nat with (String.length s) by lia.
  rewrite substring_length_append, substring_0_append.
  replace (1 <=? String.length s + 1)%nat with true
    by (symmetry; apply Nat.leb_le; lia).
  done.
Qed.

Lemma TrimSuffix_no_newline (s : string) :
  (forall t, s <> t +:+ nl) -> strings_TrimSuffix s nl = s.
Proof.
  intros Hno. unfold strings_TrimSuffix. simpl String.length.
  destruct (1 <=? String.length s)%nat eqn:Hlen; [|done].
  apply Nat.leb_le in Hlen.
  case_bool_decide as Hsuf; [|done].
  exfalso. apply (Hno (String.substring 0 (String.length s - 1) s)).
  pose proof (substring_split s (String.length s - 1) ltac:(lia)) as Hsp.
  replace (String.length s - (String.length s - 1))%nat with 1%nat in Hsp by lia.
  by rewrite Hsuf in Hsp.
Qed.

(** X10. The passphrase read from a file is the content of the file without
    one trailing newline: a file that holds [p] followed by a newline gives
    the passphrase [p], and a file whose content [p] does not end with a
    newline gives [p] as it is. *)
Theorem passphrase_file_newline (W : World) (c : Context) (p : string) :
  ctxString c "passphrase-file" <> "" ->
  (ReadFile W (ctxString c "passphrase-file") = Some (p +:+ nl) ->
   getPassphrase W c true = ([EvReadFile (ctxString c "passphrase-file")], Ok p)) /\
  (ReadFile W (ctxString c "passphrase-file") = Some p ->
   (forall t, p <> t +:+ nl) ->
   getPassphrase W c true = ([EvReadFile (ctxString c "passphrase-file")], Ok p)).
Proof.
  intros Hfile. rewrite getPassphrase_true, bool_decide_eq_false_2 by done.
  split.
  - intros ->. by rewrite TrimSuffix_newline.
  - intros -> Hno. by rewrite TrimSuffix_no_newline.
Qed.

Lemma passphrase_file_newline_witness :
  getPassphrase (Sample.world [] []) (Sample.txFlags "0xaa01") true =
  ([EvReadFile (ctxString (Sample.txFlags "0xaa01") "passphrase-file")], Ok "secret").
Proof.
  apply (proj1 (passphrase_file_newline (Sample.world [] []) (Sample.txFlags "0xaa01")
                  "secret" ltac:(discriminate))).
  reflexivity.
Defined.

(** ** When a passphrase is read *)


